(** * StockNav: technical-signal voting, the generative-model client and the
  analysis pipeline

  A shallow embedding of [Scraper.py] ([StockScraper.technical_analysis]),
  [Content.py] ([ContentGenerator]) and [Analysis.py]
  ([StockAnalysisPipeline.run_pipeline]).

  Python [float] is IEEE-754 binary64: it is modelled by Rocq's primitive
  [float], so that sums such as [0.3 + 0.2 + 0.2] round exactly as they do
  in the interpreter.  Python exceptions, [time.sleep], the logger, the
  external model service and the file system are threaded through an
  explicit world in a small state-and-exception monad. *)

From Stdlib Require Import ZArith List String Ascii Bool Lia QArith Qabs Floats.
From stdpp Require Import gmap strings.
Import ListNotations.
Set Warnings "-inexact-float".

Local Open Scope Z_scope.

(** ** Python strings *)

Module PyStr.

(** A [str] is held as the bytes of its UTF-8 encoding: a character of
    ASCII is one byte below 128, any other character is two to four bytes
    from 128 on. *)

(** [s.isascii()] *)
Fixpoint isascii (s : string) : bool :=
  match s with
  | EmptyString => true
  | String c r => (nat_of_ascii c <? 128)%nat && isascii r
  end.

(** [c.upper()] on one ASCII letter. *)
Definition upper_ascii (c : ascii) : ascii :=
  let n := nat_of_ascii c in
  if ((97 <=? n) && (n <=? 122))%nat then ascii_of_nat (n - 32) else c.

(** [s.upper()] of a string [s] with [s.isascii()]: the letters [a]-[z]
    become [A]-[Z] and nothing else changes.  Outside ASCII [str.upper]
    follows the Unicode tables, which this function does not: the
    statements that rest on it are about ASCII strings. *)
Fixpoint upper (s : string) : string :=
  match s with
  | EmptyString => EmptyString
  | String c r => String (upper_ascii c) (upper r)
  end.

(** [hay.startswith(needle)]. *)
Fixpoint startswith (needle hay : string) : bool :=
  match needle, hay with
  | EmptyString, _ => true
  | String _ _, EmptyString => false
  | String a n', String b h' => Ascii.eqb a b && startswith n' h'
  end.

(** [needle in hay]. *)
Fixpoint contains (needle hay : string) : bool :=
  startswith needle hay ||
  match hay with
  | EmptyString => false
  | String _ h' => contains needle h'
  end.

(** *** Facts about the string operations *)

Lemma upper_ascii_idempotent (c : ascii) :
  upper_ascii (upper_ascii c) = upper_ascii c.
Proof. destruct c as [[] [] [] [] [] [] [] []]; reflexivity. Qed.

(** Upper-casing twice is upper-casing once. *)
Lemma upper_idempotent (s : string) : upper (upper s) = upper s.
Proof.
  induction s as [|c s IH]; cbn; [reflexivity|].
  now rewrite upper_ascii_idempotent, IH.
Qed.

Lemma upper_length (s : string) : String.length (upper s) = String.length s.
Proof. induction s as [|c s IH]; cbn; [reflexivity | now rewrite IH]. Qed.

(** [startswith] finds exactly the strings that begin with the needle. *)
Lemma startswith_iff (needle hay : string) :
  startswith needle hay = true <-> exists post, hay = (needle ++ post)%string.
Proof.
  revert hay. induction needle as [|a n IH]; intros hay; cbn.
  - split; [intros _; now exists hay | reflexivity].
  - destruct hay as [|b h].
    + split; [discriminate | intros [post H]; discriminate].
    + rewrite andb_true_iff, Ascii.eqb_eq, IH. split.
      * intros [-> [post ->]]. now exists post.
      * intros [post H]. injection H as -> ->. split; [reflexivity|].
        now exists post.
Qed.

(** [contains] finds exactly the strings that hold the needle somewhere. *)
Lemma contains_iff (needle hay : string) :
  contains needle hay = true <->
  exists pre post, hay = (pre ++ needle ++ post)%string.
Proof.
  induction hay as [|b h IH].
  - cbn [contains]. rewrite orb_false_r, startswith_iff. split.
    + intros [post H]. now exists EmptyString, post.
    + intros [pre [post H]]. destruct pre as [|c pre]; [|discriminate].
      now exists post.
  - cbn [contains]. rewrite orb_true_iff, startswith_iff, IH. split.
    + intros [[post H] | [pre [post H]]].
      * now exists EmptyString, post.
      * exists (String b pre), post. cbn. now rewrite H.
    + intros [pre [post H]]. destruct pre as [|c pre].
      * left. now exists post.
      * right. cbn in H. injection H as -> ->. now exists pre, post.
Qed.

Lemma length_append (a b : string) :
  String.length (a ++ b)%string = (String.length a + String.length b)%nat.
Proof.
  induction a as [|c a IH]; [reflexivity|].
  change (S (String.length (a ++ b)%string) =
          S (String.length a + String.length b)%nat).
  now rewrite IH.
Qed.

End PyStr.

(** ** Python floats and the builtin [sum] *)

Module PyFloat.

Local Open Scope float_scope.

(** [float(z)] for a machine-sized integer, as [int * float] converts its
    left operand. *)
Definition float_of_int (z : Z) : float :=
  if (z <? 0)%Z then - of_uint63 (Uint63.of_Z (- z))
  else of_uint63 (Uint63.of_Z z).

(** [a > b] on floats: false as soon as one side is NaN. *)
Definition gt (a b : float) : bool := b <? a.

(** [a < b] on floats. *)
Definition lt (a b : float) : bool := a <? b.

(** The builtin [sum] adds floats in one of two ways.  Up to CPython 3.11
    it is a plain left-to-right addition; from CPython 3.12 on it is
    Neumaier's compensated summation.  Both start from the int [0]. *)
Inductive SumAlgorithm := PlainSum | CompensatedSum.

Definition plain_sum (start : float) (items : list float) : float :=
  fold_left add items start.

(** One step of the compensated loop: [f_result], [c] and the item [x]. *)
Definition neumaier_step (st : float * float) (x : float) : float * float :=
  let '(f_result, c) := st in
  let t := f_result + x in
  (t, if abs x <=? abs f_result
      then c + ((f_result - t) + x)
      else c + ((x - t) + f_result)).

Definition compensated_sum (start : float) (items : list float) : float :=
  let '(f_result, c) := fold_left neumaier_step items (start, 0) in
  if negb (c =? 0) && is_finite c then f_result + c else f_result.

(** [sum(items)] for a sequence of floats. *)
Definition py_sum (alg : SumAlgorithm) (items : list float) : float :=
  match items with
  | [] => float_of_int 0
  | x :: rest =>
      let first := float_of_int 0 + x in
      match alg with
      | PlainSum => plain_sum first rest
      | CompensatedSum => compensated_sum first rest
      end
  end.

(** The rational a finite float denotes ([None] for NaN and infinities). *)
Definition to_Q (f : float) : option Q :=
  match Prim2SF f with
  | S754_zero _ => Some 0%Q
  | S754_finite s m e =>
      Some (((if s then -1 else 1) * Z.pos m # 1) * Qpower 2 e)%Q
  | _ => None
  end.

(** A comparison against NaN is false. *)
Lemma gt_nan_r (x : float) : gt x nan = false.
Proof.
  unfold gt. rewrite ltb_spec.
  change (Prim2SF nan) with S754_nan.
  unfold SFltb, SFcompare.
  destruct (Prim2SF x) as [sg|sg| |sg m e]; reflexivity.
Qed.

(** No float is both below [-0.5] and above [0.5]. *)
Lemma lt_gt_half_disjoint (s : float) :
  lt s (-0.5) = true -> gt s 0.5 = false.
Proof.
  unfold lt, gt. rewrite !ltb_spec.
  set (lo := Prim2SF (-0.5)). vm_compute in lo.
  set (hi := Prim2SF 0.5). vm_compute in hi. subst lo hi.
  unfold SFltb, SFcompare.
  destruct (Prim2SF s) as [sg|sg| |sg m e]; try destruct sg;
    try reflexivity; try discriminate.
Qed.

Lemma lt_nan_r (x : float) : lt x nan = false.
Proof.
  unfold lt. rewrite ltb_spec.
  change (Prim2SF nan) with S754_nan.
  unfold SFltb, SFcompare.
  destruct (Prim2SF x) as [sg|sg| |sg m e]; reflexivity.
Qed.

End PyFloat.


(** ** The logger *)

Inductive LogLevel := INFO | WARNING | ERROR.

Definition LogRecord : Type := LogLevel * string.

(** ** Scraper.py: [StockScraper.technical_analysis] *)

Module Scraper.

Import PyFloat.
Local Open Scope string_scope.

(** One daily bar of the frame [yf.download] returns. *)
Record Bar := mkBar {
  Date : Z;
  Open : float;
  High : float;
  Low : float;
  Close : float;
  Volume : float
}.

(** The frame is its rows, oldest first; a column is a [Series]. *)
Definition DataFrame : Type := list Bar.
Definition Series : Type := list float.

(** [df.empty] *)
Definition empty (df : DataFrame) : bool :=
  match df with [] => true | _ :: _ => false end.

(** [df['Close']] *)
Definition column_Close (df : DataFrame) : Series := map Close df.

(** [s.iloc[-1]] on a series that has a last row. *)
Definition iloc_last (s : Series) : float := List.last s nan.

(** The mean pandas reports at the end of the rows [seen] so far for
    [rolling(window)]: [min_periods] defaults to [window], so the value is
    NaN until [window] observations that are not NaN fill the window.  Past
    that point it is their sum over [window]; pandas accumulates the sum
    incrementally, so its last digits may differ from the plain sum taken
    here, and nothing below depends on them. *)
Definition window_mean (window : nat) (seen : Series) : float :=
  if (length seen <? window)%nat then nan
  else
    let w := skipn (length seen - window) seen in
    if existsb is_nan w then nan
    else (plain_sum 0 w / of_uint63 (Uint63.of_Z (Z.of_nat window)))%float.

(** [s.rolling(window=window).mean()]: a series as long as [s]. *)
Definition rolling_mean (window : nat) (s : Series) : Series :=
  map (fun i => window_mean window (firstn (S i) s)) (seq 0 (length s)).

(** [StockScraper.__init__] *)
Record StockScraper := mkStockScraper { stock : string; exchange : string }.

Definition init (company exchange : string) : StockScraper :=
  {| stock := PyStr.upper company; exchange := PyStr.upper exchange |}.

(** [weights] of the weighted voting. *)
Definition weights : list float := [0.3; 0.2; 0.2; 0.2; 0.1]%float.

(** [sum(s * w for s, w in zip(signals, weights))] *)
Definition weighted_signals (alg : SumAlgorithm) (signals : list Z) : float :=
  py_sum alg (map (fun sw => (float_of_int (fst sw) * snd sw)%float)
                  (combine signals weights)).

(** The last three statements of [technical_analysis]. *)
Definition recommendation (weighted_signals : float) : string :=
  if gt weighted_signals 0.5 then "Buy"
  else if lt weighted_signals (-0.5) then "Sell"
  else "Hold".

(** The vote of the two simple moving averages. *)
Definition sma_signal (close : Series) : Z :=
  let SMA_50 := rolling_mean 50 close in
  let SMA_100 := rolling_mean 100 close in
  if gt (iloc_last SMA_50) (iloc_last SMA_100) then 1 else -1.

(** The exact weighted sum the specification speaks of, over the rationals. *)
Definition spec_weights : list Q := [3 # 10; 2 # 10; 2 # 10; 2 # 10; 1 # 10]%Q.

Definition spec_score (signals : list Z) : Q :=
  fold_left Qplus
    (map (fun sw => (inject_Z (fst sw) * snd sw)%Q) (combine signals spec_weights))
    0%Q.

(** A vote is one of the ints [-1], [0], [1]. *)
Definition is_vote (s : Z) : Prop := s = -1 \/ s = 0 \/ s = 1.

Definition vote_values : list Z := [-1; 0; 1].

(** Every vector of [n] votes. *)
Fixpoint vote_vectors (n : nat) : list (list Z) :=
  match n with
  | O => [[]]
  | S k => flat_map (fun s => map (cons s) (vote_vectors k)) vote_values
  end.

(** The score of [signals] is a finite float within [2^-53] of the exact
    weighted sum, and lies between [-1] and [1]. *)
Definition score_close (alg : SumAlgorithm) (signals : list Z) : bool :=
  let score := weighted_signals alg signals in
  match to_Q score with
  | Some q => Qle_bool (Qabs (q - spec_score signals)) (Qpower 2 (-53))
  | None => false
  end && (-1 <=? score)%float && (score <=? 1)%float.

(** The votes the code can cast: the moving averages, MACD and the EMAs
    never abstain. *)
Definition castable (v : list Z) : bool :=
  match v with
  | [sma; _; macd; _; ema] =>
      negb (sma =? 0)%Z && negb (macd =? 0)%Z && negb (ema =? 0)%Z
  | _ => false
  end.

(** The label the exact weighted sum would give. *)
Definition spec_recommendation (v : list Z) : string :=
  if Qle_bool (spec_score v) (1 # 2) then
    if Qle_bool (- (1 # 2)) (spec_score v) then "Hold" else "Sell"
  else "Buy".

Section TechnicalAnalysis.

(** [yf.download(tick, period="1y", interval="1d")] *)
Variable yf_download : string -> DataFrame.

(** The indicators of the [ta] package, each at the latest bar
    ([.iloc[-1]] of the series the package returns, which has one entry per
    row of its input): [RSIIndicator(close, window).rsi()],
    [MACD(close).macd()] and [.macd_signal()],
    [BollingerBands(close, window, window_dev).bollinger_hband()] and
    [.bollinger_lband()], [EMAIndicator(close, window).ema_indicator()]. *)
Variable ta_rsi : nat -> Series -> float.
Variable ta_macd : Series -> float.
Variable ta_macd_signal : Series -> float.
Variable ta_bollinger_hband : nat -> Z -> Series -> float.
Variable ta_bollinger_lband : nat -> Z -> Series -> float.
Variable ta_ema_indicator : nat -> Series -> float.

(** The algorithm of the interpreter's [sum]. *)
Variable alg : SumAlgorithm.

Definition rsi_signal (close : Series) : Z :=
  let RSI := ta_rsi 14 close in
  if gt RSI 70 then -1 else if lt RSI 30 then 1 else 0.

Definition macd_signal (close : Series) : Z :=
  if gt (ta_macd close) (ta_macd_signal close) then 1 else -1.

Definition bollinger_signal (close : Series) : Z :=
  let BB_upper := ta_bollinger_hband 20 2 close in
  let BB_lower := ta_bollinger_lband 20 2 close in
  if lt (iloc_last close) BB_lower then 1
  else if gt (iloc_last close) BB_upper then -1
  else 0.

Definition ema_signal (close : Series) : Z :=
  if gt (ta_ema_indicator 20 close) (ta_ema_indicator 50 close) then 1 else -1.

(** [signals] once the five [append]s have run. *)
Definition signals (close : Series) : list Z :=
  [sma_signal close; rsi_signal close; macd_signal close;
   bollinger_signal close; ema_signal close].

(** [technical_analysis] when every library call completes: what it logs
    and what it returns.  The runs in which a call raises are those of
    [Indicators.technical_analysis]. *)
Definition technical_analysis (self : StockScraper) : list LogRecord * string :=
  let tick := stock self ++ ".NS" in
  let df := yf_download tick in
  if empty df then
    ([(ERROR, "Data fetch failed for ticker: " ++ tick)],
     "Data fetch failed. Check the stock symbol.")
  else
    ([], recommendation (weighted_signals alg (signals (column_Close df)))).

(** *** What [technical_analysis] returns *)

(** C8. When the download comes back empty, [technical_analysis] logs the
    failed fetch and returns the fetch-failure message: no vote is computed
    (the result is the same whatever the indicators would say) and the
    message is none of the labels "Buy", "Sell", "Hold". *)
Theorem technical_analysis_empty_fetch (self : StockScraper) :
  yf_download (stock self ++ ".NS") = [] ->
  technical_analysis self =
    ([(ERROR, "Data fetch failed for ticker: " ++ stock self ++ ".NS")],
     "Data fetch failed. Check the stock symbol.") /\
  snd (technical_analysis self) <> "Buy" /\
  snd (technical_analysis self) <> "Sell" /\
  snd (technical_analysis self) <> "Hold".
Proof.
  intros Hdf. unfold technical_analysis. rewrite Hdf. cbn [empty snd].
  repeat split; discriminate.
Qed.

End TechnicalAnalysis.

(** *** The rolling mean at the latest bar *)

Lemma rolling_mean_length (window : nat) (s : Series) :
  length (rolling_mean window s) = length s.
Proof. unfold rolling_mean. now rewrite length_map, length_seq. Qed.

Lemma iloc_last_rolling_mean (window : nat) (s : Series) :
  s <> [] -> iloc_last (rolling_mean window s) = window_mean window s.
Proof.
  intros Hs. unfold iloc_last, rolling_mean.
  destruct (length s) as [|n] eqn:Hn.
  - destruct s; [contradiction | discriminate].
  - rewrite seq_S, map_app. cbn [map Nat.add].
    rewrite List.last_last, <- Hn. now rewrite firstn_all.
Qed.

Lemma window_mean_short (window : nat) (s : Series) :
  (length s < window)%nat -> window_mean window s = nan.
Proof.
  intros Hlt. unfold window_mean.
  destruct (Nat.ltb_spec (length s) window) as [_|Hge]; [reflexivity | lia].
Qed.

(** C1, as the code has it.  With fewer than 100 bars (and at least one)
    the 100-bar average at the latest bar is NaN, the strict comparison
    [SMA_50 > SMA_100] is false, and the vote of the moving averages is
    [-1]: it is computed without an exception, and it is not neutral. *)
Theorem sma_signal_short_history (df : DataFrame) :
  df <> [] -> (length df < 100)%nat ->
  iloc_last (rolling_mean 100 (column_Close df)) = nan /\
  sma_signal (column_Close df) = -1.
Proof.
  intros Hne Hlen.
  assert (Hc : column_Close df <> []).
  { unfold column_Close. destruct df; [contradiction | discriminate]. }
  assert (Hnan : iloc_last (rolling_mean 100 (column_Close df)) = nan).
  { rewrite iloc_last_rolling_mean by exact Hc.
    apply window_mean_short. unfold column_Close. now rewrite length_map. }
  split; [exact Hnan|].
  unfold sma_signal. cbv zeta. rewrite Hnan, gt_nan_r. reflexivity.
Qed.

(** Three bars, as a short history. *)
Definition three_bars : DataFrame :=
  [ mkBar 1 100 102 99 101 5000;
    mkBar 2 101 104 100 103 6500;
    mkBar 3 103 105 101 102 4000 ]%float.

Lemma sma_signal_short_history_witness :
  three_bars <> [] /\ (length three_bars < 100)%nat /\
  iloc_last (rolling_mean 100 (column_Close three_bars)) = nan /\
  sma_signal (column_Close three_bars) = -1.
Proof.
  split; [discriminate|]. split; [cbn; lia|].
  apply (sma_signal_short_history three_bars); [discriminate | cbn; lia].
Defined.

(** C1, as the specification words it, fails: on three bars the vote of the
    moving averages is not the neutral [0]. *)
Lemma sma_signal_short_history_not_neutral :
  three_bars <> [] /\ (length three_bars < 100)%nat /\
  sma_signal (column_Close three_bars) <> 0.
Proof.
  split; [discriminate|]. split; [cbn; lia|].
  vm_compute. discriminate.
Qed.

(** *** The decision rule *)

(** C3. The label is "Buy" exactly above [0.5], "Sell" exactly below
    [-0.5] and "Hold" for every other score; the two thresholds themselves
    are "Hold". *)
Theorem recommendation_strict (score : float) :
  (gt score 0.5 = true -> recommendation score = "Buy") /\
  (lt score (-0.5) = true -> recommendation score = "Sell") /\
  (gt score 0.5 = false -> lt score (-0.5) = false ->
   recommendation score = "Hold") /\
  recommendation 0.5 = "Hold" /\
  recommendation (-0.5) = "Hold".
Proof.
  unfold recommendation. repeat split.
  - now intros ->.
  - intros Hlt. now rewrite (lt_gt_half_disjoint _ Hlt), Hlt.
  - now intros -> ->.
Qed.

(** *** The weighted score *)

Lemma is_vote_values (s : Z) : is_vote s -> In s vote_values.
Proof. unfold is_vote, vote_values. intros [-> | [-> | ->]]; cbn; auto. Qed.

Lemma vote_vectors_complete (v : list Z) :
  Forall is_vote v -> In v (vote_vectors (length v)).
Proof.
  induction 1 as [|s v Hs _ IH]; cbn [length vote_vectors].
  - now left.
  - apply in_flat_map. exists s. split; [now apply is_vote_values|].
    now apply in_map.
Qed.

Lemma score_close_all (alg : SumAlgorithm) :
  forallb (score_close alg) (vote_vectors 5) = true.
Proof. destruct alg; vm_compute; reflexivity. Qed.

(** C4, as the code has it.  The score of five votes is the binary64 sum
    of the products [vote * weight], taken from left to right: it is
    within [2^-53] of the exact weighted sum and lies in [[-1, 1]].  Five
    [+1] give "Buy" (score [1.0] under the compensated [sum],
    [0.9999999999999999] under the plain one), five [-1] give "Sell"
    (scores [-1.0] and [-0.9999999999999999]), five [0] give score [0.0]
    and "Hold". *)
Theorem weighted_signals_votes (alg : SumAlgorithm) (v : list Z) :
  length v = 5%nat -> Forall is_vote v ->
  let score := weighted_signals alg v in
  (exists q, to_Q score = Some q /\
             (Qabs (q - spec_score v) <= Qpower 2 (-53))%Q) /\
  (-1 <=? score)%float = true /\ (score <=? 1)%float = true /\
  recommendation (weighted_signals alg [1; 1; 1; 1; 1]) = "Buy" /\
  weighted_signals CompensatedSum [1; 1; 1; 1; 1] = 1%float /\
  weighted_signals PlainSum [1; 1; 1; 1; 1] = 0.9999999999999999%float /\
  recommendation (weighted_signals alg [-1; -1; -1; -1; -1]) = "Sell" /\
  weighted_signals CompensatedSum [-1; -1; -1; -1; -1] = (-1)%float /\
  weighted_signals PlainSum [-1; -1; -1; -1; -1] = (-0.9999999999999999)%float /\
  weighted_signals alg [0; 0; 0; 0; 0] = 0%float /\
  recommendation (weighted_signals alg [0; 0; 0; 0; 0]) = "Hold".
Proof.
  intros Hlen Hv score.
  assert (Hin : In v (vote_vectors 5)).
  { rewrite <- Hlen. now apply vote_vectors_complete. }
  pose proof (proj1 (forallb_forall _ _) (score_close_all alg) v Hin) as Hok.
  unfold score_close in Hok. fold score in Hok.
  apply andb_prop in Hok. destruct Hok as [Hok Hhi].
  apply andb_prop in Hok. destruct Hok as [Hq Hlo].
  split.
  { destruct (to_Q score) as [q|]; [|discriminate].
    exists q. split; [reflexivity|]. now apply Qle_bool_iff. }
  split; [exact Hlo|]. split; [exact Hhi|].
  destruct alg; repeat split; vm_compute; reflexivity.
Qed.

Lemma weighted_signals_votes_witness :
  let v := [1; -1; 0; 1; -1] in
  let score := weighted_signals PlainSum v in
  (exists q, to_Q score = Some q /\
             (Qabs (q - spec_score v) <= Qpower 2 (-53))%Q) /\
  (-1 <=? score)%float = true /\ (score <=? 1)%float = true.
Proof.
  pose proof (weighted_signals_votes PlainSum [1; -1; 0; 1; -1] eq_refl) as H.
  refine (let H' := H _ in conj (proj1 H') (conj (proj1 (proj2 H'))
            (proj1 (proj2 (proj2 H'))))).
  unfold is_vote. repeat constructor; lia.
Defined.

(** C4, as the specification words it, fails.  The votes
    [[1, 0, -1, 0, -1]] (averages up, MACD and EMA down, the rest neutral)
    have the exact weighted sum [0.3 - 0.2 - 0.1 = 0], and the score is the
    float [-2.7755575615628914e-17] under either [sum]: it is not [0.0]. *)
Lemma weighted_signals_not_exact :
  let v := [1; 0; -1; 0; -1] in
  Forall is_vote v /\
  (spec_score v == 0)%Q /\
  weighted_signals PlainSum v = (-2.7755575615628914e-17)%float /\
  weighted_signals CompensatedSum v = (-2.7755575615628914e-17)%float /\
  (-2.7755575615628914e-17 =? 0)%float = false /\
  (exists q, to_Q (-2.7755575615628914e-17) = Some q /\ (q < 0)%Q).
Proof.
  intros v. subst v.
  split; [unfold is_vote; repeat constructor; lia|].
  split; [reflexivity|].
  split; [vm_compute; reflexivity|].
  split; [vm_compute; reflexivity|].
  split; [vm_compute; reflexivity|].
  eexists. split; [vm_compute; reflexivity|]. reflexivity.
Qed.

Lemma castable_labels_all (alg : SumAlgorithm) :
  forallb (fun v => implb (castable v)
                      (String.eqb (recommendation (weighted_signals alg v))
                                  (spec_recommendation v)))
          (vote_vectors 5) = true.
Proof. destruct alg; vm_compute; reflexivity. Qed.

(** On the votes the code can cast, rounding never changes the label: the
    float score gives the label of the exact weighted sum. *)
Theorem castable_votes_exact_label (alg : SumAlgorithm) (v : list Z) :
  Forall is_vote v -> castable v = true ->
  recommendation (weighted_signals alg v) = spec_recommendation v.
Proof.
  intros Hv Hc.
  assert (Hlen : length v = 5%nat).
  { destruct v as [|a [|b [|c [|d [|e [|f v]]]]]]; try discriminate.
    reflexivity. }
  assert (Hin : In v (vote_vectors 5)).
  { rewrite <- Hlen. now apply vote_vectors_complete. }
  pose proof (proj1 (forallb_forall _ _) (castable_labels_all alg) v Hin) as H.
  cbv beta in H. rewrite Hc in H. cbn [implb] in H.
  now apply String.eqb_eq.
Qed.

Lemma castable_votes_exact_label_witness :
  recommendation (weighted_signals PlainSum [1; 1; 1; 0; -1]) = "Buy".
Proof.
  refine (castable_votes_exact_label PlainSum [1; 1; 1; 0; -1] _ eq_refl).
  unfold is_vote. repeat constructor; lia.
Defined.

(** *** Two downloads *)

(** A ticker the data source does not know, and one with three bars; the
    indicators of a quiet market. *)
Definition unknown_ticker (tick : string) : DataFrame := [].
Definition young_ticker (tick : string) : DataFrame := three_bars.
Definition quiet_rsi (window : nat) (close : Series) : float := 50%float.
Definition quiet_line (close : Series) : float := 0%float.
Definition quiet_band (level : float) (window : nat) (dev : Z)
    (close : Series) : float := level.
Definition quiet_ema (window : nat) (close : Series) : float :=
  iloc_last close.

Lemma technical_analysis_empty_fetch_witness :
  technical_analysis unknown_ticker quiet_rsi quiet_line quiet_line
    (quiet_band 110) (quiet_band 90) quiet_ema PlainSum (init "nosuch" "nse") =
  ([(ERROR, "Data fetch failed for ticker: NOSUCH.NS")],
   "Data fetch failed. Check the stock symbol.").
Proof.
  exact (proj1 (technical_analysis_empty_fetch unknown_ticker quiet_rsi
                  quiet_line quiet_line (quiet_band 110) (quiet_band 90)
                  quiet_ema PlainSum (init "nosuch" "nse") eq_refl)).
Defined.

Lemma recommendation_strict_witness :
  recommendation 0.5000000000000001 = "Buy" /\
  recommendation (-0.5000000000000001) = "Sell" /\
  recommendation 0.49999999999999994 = "Hold".
Proof.
  split; [|split].
  - exact (proj1 (recommendation_strict 0.5000000000000001) eq_refl).
  - exact (proj1 (proj2 (recommendation_strict (-0.5000000000000001))) eq_refl).
  - exact (proj1 (proj2 (proj2 (recommendation_strict 0.49999999999999994)))
             eq_refl eq_refl).
Defined.

(** *** Verdicts of [technical_analysis] *)

(** Among the votes the code can cast, only those that begin with [1]
    score "Buy", and only those that begin with [-1] score "Sell". *)
Definition veto_holds (alg : SumAlgorithm) (v : list Z) : bool :=
  match v with
  | sma :: _ =>
      let label := recommendation (weighted_signals alg v) in
      implb (castable v)
        (implb (String.eqb label "Buy") (sma =? 1)%Z &&
         implb (String.eqb label "Sell") (sma =? -1)%Z)
  | [] => true
  end.

Lemma veto_holds_all (alg : SumAlgorithm) :
  forallb (veto_holds alg) (vote_vectors 5) = true.
Proof. destruct alg; vm_compute; reflexivity. Qed.

Lemma sma_signal_short (close : Series) :
  close <> [] -> (length close < 100)%nat -> sma_signal close = -1.
Proof.
  intros Hne Hlen. unfold sma_signal. cbv zeta.
  rewrite (iloc_last_rolling_mean 100 close Hne).
  rewrite (window_mean_short 100 close Hlen), gt_nan_r. reflexivity.
Qed.

Section Verdicts.

Variable yf_download : string -> DataFrame.
Variable ta_rsi : nat -> Series -> float.
Variable ta_macd : Series -> float.
Variable ta_macd_signal : Series -> float.
Variable ta_bollinger_hband : nat -> Z -> Series -> float.
Variable ta_bollinger_lband : nat -> Z -> Series -> float.
Variable ta_ema_indicator : nat -> Series -> float.
Variable alg : SumAlgorithm.

Let votes (close : Series) : list Z :=
  signals ta_rsi ta_macd ta_macd_signal ta_bollinger_hband
    ta_bollinger_lband ta_ema_indicator close.

Let analysis (self : StockScraper) : list LogRecord * string :=
  technical_analysis yf_download ta_rsi ta_macd ta_macd_signal
    ta_bollinger_hband ta_bollinger_lband ta_ema_indicator alg self.

(** The five votes are votes, and three of them never abstain. *)
Lemma signals_castable (close : Series) :
  Forall is_vote (votes close) /\ castable (votes close) = true /\
  length (votes close) = 5%nat.
Proof.
  subst votes. unfold signals, sma_signal, rsi_signal, macd_signal,
    bollinger_signal, ema_signal, is_vote. cbv zeta.
  repeat match goal with
         | |- context [if ?b then _ else _] => destruct b
         end;
    (split; [repeat constructor; lia | split; reflexivity]).
Qed.

(** For every download with at least one bar the label returned is the
    label of the exact weighted sum of the five votes: "Buy" when it
    exceeds 1/2, "Sell" when it is below -1/2, "Hold" otherwise, whichever
    way the interpreter adds the floats. *)
Theorem technical_analysis_exact_label (self : StockScraper) :
  yf_download (stock self ++ ".NS") <> [] ->
  snd (analysis self) =
    spec_recommendation
      (votes (column_Close (yf_download (stock self ++ ".NS")))).
Proof.
  intros Hdf. subst analysis. unfold technical_analysis.
  destruct (yf_download (stock self ++ ".NS")) as [|bar df] eqn:E;
    [contradiction|].
  cbn [empty snd].
  destruct (signals_castable (column_Close (bar :: df))) as [Hv [Hc Hlen]].
  assert (Hin : In (votes (column_Close (bar :: df))) (vote_vectors 5)).
  { rewrite <- Hlen. now apply vote_vectors_complete. }
  pose proof (proj1 (forallb_forall _ _) (castable_labels_all alg) _ Hin) as H.
  cbv beta in H. rewrite Hc in H. cbn [implb] in H.
  now apply String.eqb_eq.
Qed.

(** The moving averages have a veto: "Buy" is returned only when their
    vote is [+1], "Sell" only when it is [-1]. *)
Theorem technical_analysis_sma_veto (self : StockScraper) :
  yf_download (stock self ++ ".NS") <> [] ->
  let close := column_Close (yf_download (stock self ++ ".NS")) in
  (snd (analysis self) = "Buy" -> sma_signal close = 1) /\
  (snd (analysis self) = "Sell" -> sma_signal close = -1).
Proof.
  intros Hdf close. subst close analysis. unfold technical_analysis.
  destruct (yf_download (stock self ++ ".NS")) as [|bar df] eqn:E;
    [contradiction|].
  cbn [empty snd].
  destruct (signals_castable (column_Close (bar :: df))) as [Hv [Hc Hlen]].
  assert (Hin : In (votes (column_Close (bar :: df))) (vote_vectors 5)).
  { rewrite <- Hlen. now apply vote_vectors_complete. }
  pose proof (proj1 (forallb_forall _ _) (veto_holds_all alg) _ Hin) as H.
  subst votes. unfold signals in *. cbn [veto_holds] in H.
  rewrite Hc in H. cbn [implb] in H.
  apply andb_prop in H. destruct H as [Hbuy Hsell].
  split; intros Hlabel; rewrite Hlabel in *; cbn [String.eqb implb] in *.
  - change (String.eqb "Buy" "Buy") with true in Hbuy. cbn [implb] in Hbuy.
    now apply Z.eqb_eq.
  - change (String.eqb "Sell" "Sell") with true in Hsell.
    cbn [implb] in Hsell. now apply Z.eqb_eq.
Qed.

(** With fewer than 100 bars the answer is never "Buy", whatever the other
    indicators say. *)
Theorem technical_analysis_short_history_never_buy (self : StockScraper) :
  yf_download (stock self ++ ".NS") <> [] ->
  (length (yf_download (stock self ++ ".NS")) < 100)%nat ->
  snd (analysis self) = "Sell" \/ snd (analysis self) = "Hold".
Proof.
  intros Hdf Hlen. subst analysis. unfold technical_analysis.
  destruct (yf_download (stock self ++ ".NS")) as [|bar df] eqn:E;
    [contradiction|].
  cbn [empty snd].
  assert (Hsma : sma_signal (column_Close (bar :: df)) = -1).
  { apply sma_signal_short; [discriminate|].
    unfold column_Close. now rewrite length_map. }
  destruct (signals_castable (column_Close (bar :: df))) as [Hv [Hc Hlen5]].
  assert (Hin : In (votes (column_Close (bar :: df))) (vote_vectors 5)).
  { rewrite <- Hlen5. now apply vote_vectors_complete. }
  pose proof (proj1 (forallb_forall _ _) (veto_holds_all alg) _ Hin) as H.
  subst votes. unfold signals in *. cbn [veto_holds] in H.
  rewrite Hc in H. cbn [implb] in H.
  rewrite Hsma in *. apply andb_prop in H. destruct H as [Hbuy _].
  change (-1 =? 1)%Z with false in Hbuy.
  match goal with
  | |- context [recommendation ?x] => generalize dependent x; intros score
  end.
  unfold recommendation.
  destruct (gt score 0.5); [discriminate|].
  destruct (lt score (-0.5)); [now left | now right].
Qed.

(** When none of the indicators is defined yet (each is NaN at the latest
    bar, as on a very short history), the answer is "Sell": the three
    votes without a neutral case all fall to [-1]. *)
Theorem technical_analysis_undefined_indicators (self : StockScraper) :
  let df := yf_download (stock self ++ ".NS") in
  let close := column_Close df in
  df <> [] -> (length df < 100)%nat ->
  ta_rsi 14 close = nan ->
  ta_macd_signal close = nan ->
  ta_bollinger_hband 20 2 close = nan ->
  ta_bollinger_lband 20 2 close = nan ->
  ta_ema_indicator 50 close = nan ->
  votes close = [-1; 0; -1; 0; -1] /\ snd (analysis self) = "Sell".
Proof.
  intros df close Hdf Hlen Hrsi Hmacd Hhi Hlo Hema.
  assert (Hvotes : votes close = [-1; 0; -1; 0; -1]).
  { subst votes. unfold signals, rsi_signal, macd_signal, bollinger_signal,
      ema_signal. cbv zeta.
    rewrite sma_signal_short;
      [|subst close; unfold column_Close; destruct df;
        [contradiction | discriminate]
       |subst close; unfold column_Close; now rewrite length_map].
    rewrite Hrsi, Hmacd, Hhi, Hlo, Hema, !gt_nan_r, lt_nan_r.
    reflexivity. }
  split; [exact Hvotes|].
  subst analysis. unfold technical_analysis. fold df.
  destruct df as [|bar rest] eqn:E; [contradiction|].
  cbn [empty snd]. fold close. subst votes. cbv beta in Hvotes.
  rewrite Hvotes. destruct alg; vm_compute; reflexivity.
Qed.

End Verdicts.

(** Indicators that are not defined yet. *)
Definition no_rsi (window : nat) (close : Series) : float := nan.
Definition no_line (close : Series) : float := nan.
Definition no_band (window : nat) (dev : Z) (close : Series) : float := nan.
Definition no_ema (window : nat) (close : Series) : float := nan.

Lemma technical_analysis_exact_label_witness :
  snd (technical_analysis young_ticker quiet_rsi quiet_line quiet_line
         (quiet_band 110) (quiet_band 90) quiet_ema PlainSum
         (init "newco" "nse")) = "Sell".
Proof.
  refine (eq_trans
            (technical_analysis_exact_label young_ticker quiet_rsi quiet_line
               quiet_line (quiet_band 110) (quiet_band 90) quiet_ema PlainSum
               (init "newco" "nse") _) _).
  - discriminate.
  - vm_compute. reflexivity.
Defined.

Lemma technical_analysis_sma_veto_witness :
  sma_signal (column_Close (young_ticker "NEWCO.NS")) = -1.
Proof.
  refine (proj2 (technical_analysis_sma_veto young_ticker quiet_rsi quiet_line
                   quiet_line (quiet_band 110) (quiet_band 90) quiet_ema
                   PlainSum (init "newco" "nse") _) _).
  - discriminate.
  - vm_compute. reflexivity.
Defined.

Lemma technical_analysis_short_history_never_buy_witness :
  let r :=
    snd (technical_analysis young_ticker quiet_rsi quiet_line quiet_line
           (quiet_band 110) (quiet_band 90) quiet_ema CompensatedSum
           (init "newco" "nse")) in
  r = "Sell" \/ r = "Hold".
Proof.
  refine (technical_analysis_short_history_never_buy young_ticker quiet_rsi
            quiet_line quiet_line (quiet_band 110) (quiet_band 90) quiet_ema
            CompensatedSum (init "newco" "nse") _ _).
  - discriminate.
  - cbn. lia.
Defined.

Lemma technical_analysis_undefined_indicators_witness :
  snd (technical_analysis young_ticker no_rsi no_line no_line no_band no_band
         no_ema PlainSum (init "newco" "nse")) = "Sell".
Proof.
  refine (proj2 (technical_analysis_undefined_indicators young_ticker no_rsi
                   no_line no_line no_band no_band no_ema PlainSum
                   (init "newco" "nse") _ _ eq_refl eq_refl eq_refl eq_refl
                   eq_refl)).
  - discriminate.
  - cbn. lia.
Defined.

End Scraper.

(** ** Python exceptions, the clock, the logger and the file system *)

Module Py.

Local Open Scope string_scope.
Local Open Scope Z_scope.

(** The exception classes the code tells apart; every other subclass of
    [Exception] is [OtherException].  What is raised outside [Exception]
    ([KeyboardInterrupt], [SystemExit]) is not an [Exc]: no handler of the
    code takes it, and no statement below speaks of it. *)
Inductive ExcClass := ValueError | TypeError | OtherException.

(** An exception: its class and [str(e)]. *)
Record Exc := mkExc { exc_class : ExcClass; exc_str : string }.

(** What happens in a run, oldest first. *)
Inductive Event :=
| EvLog (level : LogLevel) (msg : string)
| EvConfigure (api_key : option string)
| EvGenerativeModel (model_name : string)
| EvGenerate (prompt : string) (started finished : Z)
| EvSleep (secs : Z)
| EvProgress (current total : Z)
| EvOpen (path : string)
| EvWrite (path content : string).

(** The world a run acts on: the clock (in seconds), how many calls the
    model service has received, the events so far and the files on disk. *)
Record World := mkWorld {
  now : Z;
  calls : nat;
  trace : list Event;
  files : gmap string string
}.

(** A statement either completes with a value or raises. *)
Inductive Result (A : Type) :=
| Returned (a : A)
| Raised (e : Exc).
Arguments Returned {A} a.
Arguments Raised {A} e.

(** A computation on the world. *)
Definition M (A : Type) : Type := World -> Result A * World.

Definition ret {A} (a : A) : M A := fun w => (Returned a, w).

Definition raise {A} (e : Exc) : M A := fun w => (Raised e, w).

Definition bind {A B} (m : M A) (k : A -> M B) : M B :=
  fun w =>
    match m w with
    | (Returned a, w') => k a w'
    | (Raised e, w') => (Raised e, w')
    end.

(** [try: body / except Exception as e: handler e]: the handler takes every
    [Exc], each being of a subclass of [Exception]. *)
Definition try_except {A} (body : M A) (handler : Exc -> M A) : M A :=
  fun w =>
    match body w with
    | (Returned a, w') => (Returned a, w')
    | (Raised e, w') => handler e w'
    end.

(** [try: body / except ValueError as ve: handler ve] *)
Definition try_except_ValueError {A} (body : M A) (handler : Exc -> M A) : M A :=
  fun w =>
    match body w with
    | (Returned a, w') => (Returned a, w')
    | (Raised e, w') =>
        match exc_class e with
        | ValueError => handler e w'
        | _ => (Raised e, w')
        end
    end.

Declare Scope py_scope.
Delimit Scope py_scope with py.
Notation "x <- m ;; k" := (bind m (fun x => k))
  (at level 100, m at next level, right associativity) : py_scope.
Notation "m ;;; k" := (bind m (fun _ => k))
  (at level 100, right associativity) : py_scope.

Definition emit (e : Event) : M unit :=
  fun w =>
    (Returned tt,
     {| now := now w; calls := calls w; trace := trace w ++ [e];
        files := files w |}).

(** A call of [logger.info], [logger.warning] or [logger.error]. *)
Definition log (level : LogLevel) (msg : string) : M unit :=
  emit (EvLog level msg).

(** [time.sleep(secs)]: a negative length raises, any other suspends the
    caller for that long. *)
Definition sleep (secs : Z) : M unit :=
  fun w =>
    if secs <? 0 then
      (Raised (mkExc ValueError "sleep length must be non-negative"), w)
    else
      (Returned tt,
       {| now := now w + secs; calls := calls w;
          trace := trace w ++ [EvSleep secs]; files := files w |}).

(** [with open(path, "w", encoding="utf-8") as f: f.write(content)].
    Opening creates the file or truncates it; [write] accepts a [str] only
    and raises [TypeError] on [None]; leaving the block closes the file. *)
Definition open_and_write (path : string) (content : option string) : M unit :=
  fun w =>
    let opened :=
      {| now := now w; calls := calls w; trace := trace w ++ [EvOpen path];
         files := <[path := ""]> (files w) |} in
    match content with
    | None =>
        (Raised (mkExc TypeError "write() argument must be str, not None"),
         opened)
    | Some text =>
        (Returned tt,
         {| now := now opened; calls := calls opened;
            trace := trace opened ++ [EvWrite path text];
            files := <[path := text]> (files opened) |})
    end.

(** [bool(s)] for a value that is [None] or a [str]. *)
Definition truthy (s : option string) : bool :=
  match s with
  | None => false
  | Some "" => false
  | Some _ => true
  end.

(** The events that are calls of the model service. *)
Definition is_generate (ev : Event) : bool :=
  match ev with EvGenerate _ _ _ => true | _ => false end.

(** The world [w] after the events [evs], at time [t], with [n] calls made. *)
Definition advance (w : World) (t : Z) (n : nat) (evs : list Event) : World :=
  {| now := t; calls := n; trace := trace w ++ evs; files := files w |}.

(** A world before anything has happened. *)
Definition initial_world : World :=
  {| now := 0; calls := 0; trace := []; files := ∅ |}.

Lemma advance_advance (w : World) t n evs t' n' evs' :
  advance (advance w t n evs) t' n' evs' = advance w t' n' (evs ++ evs').
Proof. unfold advance. cbn. now rewrite <- app_assoc. Qed.

End Py.

(** ** Content.py: [ContentGenerator] *)

Module Content.

Import Py.
Local Open Scope string_scope.
Local Open Scope Z_scope.
Local Open Scope py_scope.

(** What the model hands back: [response.text] is a string, or raises. *)
Record Response := mkResponse { text : Result string }.

(** How one call of [model.generate_content] ends. *)
Inductive Outcome :=
| Raises (e : Exc)
| Responds (r : Response).

(** The service's answer to a call, and how long the call took. *)
Record Reply := mkReply { latency : N; outcome : Outcome }.

(** The [genai] module handed to the generator: how the service answers
    its [n]-th call (counted from [0]) on a prompt. *)
Record GenAI := mkGenAI { respond : nat -> string -> Reply }.

Record ContentGenerator := mkContentGenerator {
  genai : GenAI;
  api_key : option string;
  model_name : string;
  request_interval : Z
}.

Definition default_model_name : string := "gemini-1.5-pro".
Definition default_request_interval : Z := 40.

(** [ContentGenerator._configure_model] *)
Definition _configure_model (self : ContentGenerator) : M unit :=
  if negb (truthy (api_key self)) then
    log ERROR "API key is required for ContentGenerator." ;;;
    raise (mkExc ValueError "API key is required.")
  else
    emit (EvConfigure (api_key self)) ;;;
    emit (EvGenerativeModel (model_name self)).

(** [ContentGenerator.__init__] *)
Definition init (genai : GenAI) (api_key : option string)
    (model_name : string) (request_interval : Z) : M ContentGenerator :=
  let self := mkContentGenerator genai api_key model_name request_interval in
  _configure_model self ;;;
  ret self.

(** [ContentGenerator(genai=genai, api_key=api_key)] *)
Definition init_default (genai : GenAI) (api_key : option string) :
    M ContentGenerator :=
  init genai api_key default_model_name default_request_interval.

(** [self.model.generate_content(prompt)]: the next call of the service. *)
Definition model_generate_content (self : ContentGenerator) (prompt : string) :
    M Response :=
  fun w =>
    let reply := respond (genai self) (calls w) prompt in
    let finished := now w + Z.of_N (latency reply) in
    let w' :=
      {| now := finished; calls := S (calls w);
         trace := trace w ++ [EvGenerate prompt (now w) finished];
         files := files w |} in
    match outcome reply with
    | Raises e => (Raised e, w')
    | Responds r => (Returned r, w')
    end.

(** ['500' in excpt or '503' in excpt] *)
Definition transient (excpt : string) : bool :=
  PyStr.contains "500" excpt || PyStr.contains "503" excpt.

(** The first [try] statement of [generate_content]: the response, or
    [None] when a handler has already returned [None] to the caller. *)
Definition request (self : ContentGenerator) (prompt : string) :
    M (option Response) :=
  try_except
    (response <- model_generate_content self prompt ;; ret (Some response))
    (fun e =>
       let excpt := exc_str e in
       if transient excpt then
         log WARNING
           ("Error 500/503 encountered, retrying in 1 minute: " ++ excpt) ;;;
         sleep 60 ;;;
         try_except
           (response <- model_generate_content self prompt ;;
            ret (Some response))
           (fun retry_e =>
              log ERROR ("Retry failed: " ++ exc_str retry_e) ;;;
              ret None)
       else
         log ERROR ("Error generating content: " ++ exc_str e) ;;;
         ret None).

(** [response.text] *)
Definition response_text (response : Response) : M string :=
  fun w => (text response, w).

(** The statements of [generate_content] after the first [try], once a
    [response] is at hand: the success record, the pause, and the parse. *)
Definition deliver (self : ContentGenerator) (response : Response) :
    M (option string) :=
  log INFO "Generated content successfully." ;;;
  sleep (request_interval self) ;;;
  try_except_ValueError
    (t <- response_text response ;; ret (Some t))
    (fun ve =>
       log ERROR ("ValueError parsing text: " ++ exc_str ve) ;;;
       ret None).

(** [ContentGenerator.generate_content]: the text, or [None] on failure. *)
Definition generate_content (self : ContentGenerator) (prompt : string) :
    M (option string) :=
  log INFO "Sending prompt to the generative model." ;;;
  r <- request self prompt ;;
  match r with
  | None => ret None
  | Some response => deliver self response
  end.

(** *** Running the monad *)

Ltac py_unfold :=
  unfold generate_content, deliver, request, init_default, init,
    _configure_model,
    model_generate_content, response_text, try_except_ValueError,
    try_except, bind, ret, raise, log, emit, sleep in *.

Ltac py_run := py_unfold; cbn -[Z.add Z.of_N PyStr.contains String.append] in *.

(** *** Construction *)

Lemma truthy_false (s : option string) :
  truthy s = false <-> s = None \/ s = Some "".
Proof.
  destruct s as [[|c s]|]; cbn; (split; [intros H | intros [H|H]]);
    try discriminate; auto.
Qed.

(** C9. A key that is [None] or the empty string makes the constructor
    raise [ValueError] before [genai.configure] and [GenerativeModel] are
    reached; any other key passes the check, and the model is configured
    with it. *)
Theorem init_api_key_check (g : GenAI) (key : option string)
    (name : string) (interval : Z) (w : World) :
  let r := init g key name interval w in
  (key = None \/ key = Some "" ->
   fst r = Raised (mkExc ValueError "API key is required.") /\
   trace (snd r) =
     (trace w ++ [EvLog ERROR "API key is required for ContentGenerator."])%list) /\
  (forall k, key = Some k -> k <> "" ->
   fst r = Returned (mkContentGenerator g key name interval) /\
   trace (snd r) = (trace w ++ [EvConfigure key; EvGenerativeModel name])%list).
Proof.
  intros r. subst r. split.
  - intros Hkey. apply truthy_false in Hkey.
    py_run. rewrite Hkey. cbn. split; reflexivity.
  - intros k -> Hk. py_run.
    destruct k as [|c k]; [contradiction|]. cbn.
    split; [reflexivity|]. now rewrite <- app_assoc.
Qed.

Lemma init_api_key_check_witness :
  let g := mkGenAI (fun _ _ => mkReply 0 (Raises (mkExc OtherException ""))) in
  fst (init g (Some "") "gemini-1.5-pro" 40 initial_world) =
    Raised (mkExc ValueError "API key is required.") /\
  fst (init g (Some "k3y") "gemini-1.5-pro" 40 initial_world) =
    Returned (mkContentGenerator g (Some "k3y") "gemini-1.5-pro" 40).
Proof.
  intros g. split.
  - apply (init_api_key_check g (Some "") "gemini-1.5-pro" 40 initial_world).
    now right.
  - apply (init_api_key_check g (Some "k3y") "gemini-1.5-pro" 40 initial_world
             ) with (k := "k3y"); [reflexivity | discriminate].
Defined.

(** *** One run of [generate_content], case by case *)

Ltac world_eq :=
  unfold advance; cbn -[Z.add Z.of_N PyStr.contains String.append];
  rewrite <- ?app_assoc; reflexivity.

Section Run.

Variable self : ContentGenerator.
Variable prompt : string.
Variable w : World.

Let first : Reply := respond (genai self) (calls w) prompt.
Let second : Reply := respond (genai self) (S (calls w)) prompt.
Let t1 : Z := now w + Z.of_N (latency first).
Let t2 : Z := t1 + 60 + Z.of_N (latency second).

Let sending : Event := EvLog INFO "Sending prompt to the generative model.".
Let retrying (e : Exc) : Event :=
  EvLog WARNING
    ("Error 500/503 encountered, retrying in 1 minute: " ++ exc_str e).

(** The service answers the first call. *)
Lemma generate_content_first_ok (resp : Response) :
  outcome first = Responds resp ->
  generate_content self prompt w =
    deliver self resp
      (advance w t1 (S (calls w)) [sending; EvGenerate prompt (now w) t1]).
Proof.
  intros H. subst first t1 sending. py_run. rewrite H.
  f_equal. world_eq.
Qed.

(** The first call fails with no transient signature. *)
Lemma generate_content_permanent (e : Exc) :
  outcome first = Raises e -> transient (exc_str e) = false ->
  generate_content self prompt w =
    (Returned None,
     advance w t1 (S (calls w))
       [sending; EvGenerate prompt (now w) t1;
        EvLog ERROR ("Error generating content: " ++ exc_str e)]).
Proof.
  intros H Ht. subst first t1 sending. py_run. rewrite H.
  cbn -[Z.add Z.of_N PyStr.contains String.append]. rewrite Ht.
  f_equal. world_eq.
Qed.

(** The first call fails with a transient signature, and so does the retry. *)
Lemma generate_content_retry_failed (e e2 : Exc) :
  outcome first = Raises e -> transient (exc_str e) = true ->
  outcome second = Raises e2 ->
  generate_content self prompt w =
    (Returned None,
     advance w t2 (S (S (calls w)))
       [sending; EvGenerate prompt (now w) t1; retrying e; EvSleep 60;
        EvGenerate prompt (t1 + 60) t2;
        EvLog ERROR ("Retry failed: " ++ exc_str e2)]).
Proof.
  intros H Ht H2. subst first second t1 t2 sending retrying. py_run.
  rewrite H. cbn -[Z.add Z.of_N PyStr.contains String.append]. rewrite Ht.
  cbn -[Z.add Z.of_N PyStr.contains String.append]. rewrite H2.
  f_equal. world_eq.
Qed.

(** The first call fails with a transient signature, the retry is answered. *)
Lemma generate_content_retry_ok (e : Exc) (resp : Response) :
  outcome first = Raises e -> transient (exc_str e) = true ->
  outcome second = Responds resp ->
  generate_content self prompt w =
    deliver self resp
      (advance w t2 (S (S (calls w)))
         [sending; EvGenerate prompt (now w) t1; retrying e; EvSleep 60;
          EvGenerate prompt (t1 + 60) t2]).
Proof.
  intros H Ht H2. subst first second t1 t2 sending retrying. py_run.
  rewrite H. cbn -[Z.add Z.of_N PyStr.contains String.append]. rewrite Ht.
  cbn -[Z.add Z.of_N PyStr.contains String.append]. rewrite H2.
  f_equal. world_eq.
Qed.

End Run.

(** What [deliver] does to the world, by the sign of the interval and by
    what [response.text] gives. *)
Lemma deliver_cases (self : ContentGenerator) (resp : Response) (w : World) :
  let succeeded := EvLog INFO "Generated content successfully." in
  let paused := EvSleep (request_interval self) in
  let t := now w + request_interval self in
  deliver self resp w =
    if request_interval self <? 0 then
      (Raised (mkExc ValueError "sleep length must be non-negative"),
       advance w (now w) (calls w) [succeeded])
    else
      match text resp with
      | Returned txt =>
          (Returned (Some txt), advance w t (calls w) [succeeded; paused])
      | Raised ve =>
          match exc_class ve with
          | ValueError =>
              (Returned None,
               advance w t (calls w)
                 [succeeded; paused;
                  EvLog ERROR ("ValueError parsing text: " ++ exc_str ve)])
          | _ => (Raised ve, advance w t (calls w) [succeeded; paused])
          end
      end.
Proof.
  intros succeeded paused t. subst succeeded paused t. py_run.
  destruct (request_interval self <? 0); [f_equal; world_eq|].
  cbn -[Z.add Z.of_N PyStr.contains String.append].
  destruct (text resp) as [txt|ve];
    cbn -[Z.add Z.of_N PyStr.contains String.append];
    [f_equal; world_eq|].
  destruct (exc_class ve); f_equal; world_eq.
Qed.

(** [deliver] makes no call of the service. *)
Lemma deliver_no_call (self : ContentGenerator) (resp : Response) (w : World) :
  calls (snd (deliver self resp w)) = calls w /\
  exists rest,
    trace (snd (deliver self resp w)) = (trace w ++ rest)%list /\
    forallb (fun ev => negb (is_generate ev)) rest = true.
Proof.
  rewrite deliver_cases.
  destruct (request_interval self <? 0);
    [|destruct (text resp) as [txt|ve]; [|destruct (exc_class ve)]];
    (split; [reflexivity | eexists; split; [reflexivity | reflexivity]]).
Qed.

(** *** The retry policy *)

(** C2. When the first call of the service raises: if the text of the
    error holds "500" or "503", the generator sleeps 60 seconds and calls
    the service once more, and no further time; if that retry raises too,
    the result is [None].  If the text holds neither, the result is [None]
    after that single call, with no sleep and no retry. *)
Theorem generate_content_retry_policy (self : ContentGenerator)
    (prompt : string) (w : World) (e : Exc) :
  let first := respond (genai self) (calls w) prompt in
  let second := respond (genai self) (S (calls w)) prompt in
  let t1 := now w + Z.of_N (latency first) in
  let t2 := t1 + 60 + Z.of_N (latency second) in
  let sending := EvLog INFO "Sending prompt to the generative model." in
  let retrying :=
    EvLog WARNING
      ("Error 500/503 encountered, retrying in 1 minute: " ++ exc_str e) in
  let r := generate_content self prompt w in
  outcome first = Raises e ->
  (transient (exc_str e) = false ->
   fst r = Returned None /\
   calls (snd r) = S (calls w) /\
   now (snd r) = t1 /\
   trace (snd r) =
     (trace w ++
      [sending; EvGenerate prompt (now w) t1;
       EvLog ERROR ("Error generating content: " ++ exc_str e)])%list) /\
  (transient (exc_str e) = true ->
   calls (snd r) = S (S (calls w)) /\
   (exists rest,
      trace (snd r) =
        (trace w ++
         [sending; EvGenerate prompt (now w) t1; retrying; EvSleep 60;
          EvGenerate prompt (t1 + 60) t2] ++ rest)%list /\
      forallb (fun ev => negb (is_generate ev)) rest = true) /\
   (forall e2, outcome second = Raises e2 ->
      fst r = Returned None /\
      trace (snd r) =
        (trace w ++
         [sending; EvGenerate prompt (now w) t1; retrying; EvSleep 60;
          EvGenerate prompt (t1 + 60) t2;
          EvLog ERROR ("Retry failed: " ++ exc_str e2)])%list)).
Proof.
  intros first second t1 t2 sending retrying r H1. split; intros Ht.
  - subst r. rewrite (generate_content_permanent _ _ _ _ H1 Ht).
    repeat split.
  - split; [|split].
    + subst r. destruct (outcome second) as [e2|resp] eqn:H2.
      * now rewrite (generate_content_retry_failed _ _ _ _ _ H1 Ht H2).
      * rewrite (generate_content_retry_ok _ _ _ _ _ H1 Ht H2).
        now rewrite (proj1 (deliver_no_call _ _ _)).
    + subst r. destruct (outcome second) as [e2|resp] eqn:H2.
      * rewrite (generate_content_retry_failed _ _ _ _ _ H1 Ht H2).
        exists [EvLog ERROR ("Retry failed: " ++ exc_str e2)].
        split; reflexivity.
      * rewrite (generate_content_retry_ok _ _ _ _ _ H1 Ht H2).
        match goal with
        | |- context [deliver self resp ?w2] =>
            destruct (deliver_no_call self resp w2) as [_ [rest [Htr Hrest]]]
        end.
        exists rest. split; [|exact Hrest].
        rewrite Htr. cbn [advance trace]. now rewrite <- app_assoc.
    + intros e2 H2. subst r.
      rewrite (generate_content_retry_failed _ _ _ _ _ H1 Ht H2).
      split; reflexivity.
Qed.

(** A service that is unavailable on the first call and answers the
    second. *)
Definition unavailable_once : GenAI :=
  mkGenAI (fun n _ =>
    match n with
    | O => mkReply 3 (Raises (mkExc OtherException "503 Service Unavailable"))
    | S _ => mkReply 5 (Responds (mkResponse (Returned "report")))
    end).

(** A service that never knows the model. *)
Definition not_found : GenAI :=
  mkGenAI (fun _ _ => mkReply 1 (Raises (mkExc OtherException "404 Not Found"))).

Lemma generate_content_retry_policy_witness :
  let self := mkContentGenerator unavailable_once (Some "k3y") "gemini-1.5-pro" 40 in
  let self' := mkContentGenerator not_found (Some "k3y") "gemini-1.5-pro" 40 in
  calls (snd (generate_content self "prompt" initial_world)) = 2%nat /\
  calls (snd (generate_content self' "prompt" initial_world)) = 1%nat.
Proof.
  intros self self'. split.
  - exact (proj1 (proj2
      (generate_content_retry_policy self "prompt" initial_world
         (mkExc OtherException "503 Service Unavailable") eq_refl) eq_refl)).
  - exact (proj1 (proj2 (proj1
      (generate_content_retry_policy self' "prompt" initial_world
         (mkExc OtherException "404 Not Found") eq_refl) eq_refl))).
Defined.

(** *** A response that does not parse *)

(** A service whose answer has no text to read. *)
Definition unparsable : GenAI :=
  mkGenAI (fun _ _ =>
    mkReply 2 (Responds (mkResponse (Raised (mkExc ValueError "no valid Part"))))).

(** A service that is unavailable once and then sends an answer with no
    text to read. *)
Definition unparsable_on_retry : GenAI :=
  mkGenAI (fun n _ =>
    match n with
    | O => mkReply 3 (Raises (mkExc OtherException "503 Service Unavailable"))
    | S _ =>
        mkReply 2
          (Responds (mkResponse (Raised (mkExc ValueError "no valid Part"))))
    end).

(** What [deliver] does with an answer whose text raises [ValueError]. *)
Lemma deliver_unparsable (self : ContentGenerator) (resp : Response)
    (ve : Exc) (w : World) :
  text resp = Raised ve -> exc_class ve = ValueError ->
  deliver self resp w =
    if request_interval self <? 0 then
      (Raised (mkExc ValueError "sleep length must be non-negative"),
       advance w (now w) (calls w)
         [EvLog INFO "Generated content successfully."])
    else
      (Returned None,
       advance w (now w + request_interval self) (calls w)
         [EvLog INFO "Generated content successfully.";
          EvSleep (request_interval self);
          EvLog ERROR ("ValueError parsing text: " ++ exc_str ve)]).
Proof.
  intros Htext Hcls. rewrite deliver_cases, Htext, Hcls. reflexivity.
Qed.

(** C5, as the code has it.  When the service answers, on the first call
    or on the retry, and [response.text] raises [ValueError], the answered
    call is the last call the generator makes, whatever the interval.  When
    the interval is not negative the generator then returns [None] after
    the pause: the very value it returns when the service fails with a
    permanent error or fails again on the retry, so that only the log
    record ("ValueError parsing text: ...") tells the parse failure apart.
    When the interval is negative the pause raises instead. *)
Theorem generate_content_unparsable (self : ContentGenerator)
    (prompt : string) (w : World) (resp : Response) (ve : Exc) :
  let first := respond (genai self) (calls w) prompt in
  let second := respond (genai self) (S (calls w)) prompt in
  let t1 := now w + Z.of_N (latency first) in
  let r := generate_content self prompt w in
  (outcome first = Responds resp \/
   exists e, outcome first = Raises e /\ transient (exc_str e) = true /\
             outcome second = Responds resp) ->
  text resp = Raised ve -> exc_class ve = ValueError ->
  (exists tr started finished rest,
     trace (snd r) =
       (tr ++ [EvGenerate prompt started finished] ++ rest)%list /\
     forallb (fun ev => negb (is_generate ev)) rest = true /\
     (0 <= request_interval self ->
      rest = [EvLog INFO "Generated content successfully.";
              EvSleep (request_interval self);
              EvLog ERROR ("ValueError parsing text: " ++ exc_str ve)] /\
      now (snd r) = finished + request_interval self)) /\
  (outcome first = Responds resp ->
   calls (snd r) = S (calls w) /\
   (0 <= request_interval self ->
    trace (snd r) =
      (trace w ++
       [EvLog INFO "Sending prompt to the generative model.";
        EvGenerate prompt (now w) t1;
        EvLog INFO "Generated content successfully.";
        EvSleep (request_interval self);
        EvLog ERROR ("ValueError parsing text: " ++ exc_str ve)])%list)) /\
  ((exists e, outcome first = Raises e) -> calls (snd r) = S (S (calls w))) /\
  (0 <= request_interval self ->
   fst r = Returned None /\
   (forall self' w' e,
      outcome (respond (genai self') (calls w') prompt) = Raises e ->
      transient (exc_str e) = false ->
      fst (generate_content self' prompt w') = fst r) /\
   (forall self' w' e e2,
      outcome (respond (genai self') (calls w') prompt) = Raises e ->
      transient (exc_str e) = true ->
      outcome (respond (genai self') (S (calls w')) prompt) = Raises e2 ->
      fst (generate_content self' prompt w') = fst r)) /\
  (request_interval self < 0 ->
   fst r = Raised (mkExc ValueError "sleep length must be non-negative")).
Proof.
  intros first second t1 r Hanswered Htext Hcls.
  assert (Hsame : fst r = Returned None ->
    (forall self' w' e,
       outcome (respond (genai self') (calls w') prompt) = Raises e ->
       transient (exc_str e) = false ->
       fst (generate_content self' prompt w') = fst r) /\
    (forall self' w' e e2,
       outcome (respond (genai self') (calls w') prompt) = Raises e ->
       transient (exc_str e) = true ->
       outcome (respond (genai self') (S (calls w')) prompt) = Raises e2 ->
       fst (generate_content self' prompt w') = fst r)).
  { intros ->. split.
    - intros self' w' e He Ht.
      now rewrite (generate_content_permanent _ _ _ _ He Ht).
    - intros self' w' e e2 He Ht He2.
      now rewrite (generate_content_retry_failed _ _ _ _ _ He Ht He2). }
  destruct Hanswered as [H1 | [e [H1 [Ht H2]]]].
  - assert (Hr : r =
      if request_interval self <? 0 then
        (Raised (mkExc ValueError "sleep length must be non-negative"),
         advance w t1 (S (calls w))
           [EvLog INFO "Sending prompt to the generative model.";
            EvGenerate prompt (now w) t1;
            EvLog INFO "Generated content successfully."])
      else
        (Returned None,
         advance w (t1 + request_interval self) (S (calls w))
           [EvLog INFO "Sending prompt to the generative model.";
            EvGenerate prompt (now w) t1;
            EvLog INFO "Generated content successfully.";
            EvSleep (request_interval self);
            EvLog ERROR ("ValueError parsing text: " ++ exc_str ve)])).
    { subst r. rewrite (generate_content_first_ok _ _ _ _ H1).
      rewrite (deliver_unparsable _ _ _ _ Htext Hcls).
      destruct (request_interval self <? 0);
        now rewrite advance_advance. }
    clearbody r. subst r.
    destruct (Z.ltb_spec (request_interval self) 0) as [Hneg|Hpos].
    + split; [|split; [|split; [|split]]].
      * exists (trace w ++ [EvLog INFO "Sending prompt to the generative model."])%list,
          (now w), t1, [EvLog INFO "Generated content successfully."].
        cbn [snd advance trace]. rewrite <- app_assoc.
        split; [reflexivity|]. split; [reflexivity|]. lia.
      * intros _. split; [reflexivity | lia].
      * intros [e He]. subst first. congruence.
      * lia.
      * intros _. reflexivity.
    + split; [|split; [|split; [|split]]].
      * exists (trace w ++ [EvLog INFO "Sending prompt to the generative model."])%list,
          (now w), t1,
          [EvLog INFO "Generated content successfully.";
           EvSleep (request_interval self);
           EvLog ERROR ("ValueError parsing text: " ++ exc_str ve)].
        cbn [snd advance trace now]. rewrite <- app_assoc.
        split; [reflexivity|]. split; [reflexivity|].
        intros _. split; reflexivity.
      * intros _. split; [reflexivity|]. intros _. reflexivity.
      * intros [e He]. subst first. congruence.
      * intros _. split; [reflexivity|]. now apply Hsame.
      * lia.
  - assert (Hr : r =
      if request_interval self <? 0 then
        (Raised (mkExc ValueError "sleep length must be non-negative"),
         advance w (t1 + 60 + Z.of_N (latency second)) (S (S (calls w)))
           [EvLog INFO "Sending prompt to the generative model.";
            EvGenerate prompt (now w) t1;
            EvLog WARNING
              ("Error 500/503 encountered, retrying in 1 minute: " ++
               exc_str e);
            EvSleep 60;
            EvGenerate prompt (t1 + 60) (t1 + 60 + Z.of_N (latency second));
            EvLog INFO "Generated content successfully."])
      else
        (Returned None,
         advance w
           (t1 + 60 + Z.of_N (latency second) + request_interval self)
           (S (S (calls w)))
           [EvLog INFO "Sending prompt to the generative model.";
            EvGenerate prompt (now w) t1;
            EvLog WARNING
              ("Error 500/503 encountered, retrying in 1 minute: " ++
               exc_str e);
            EvSleep 60;
            EvGenerate prompt (t1 + 60) (t1 + 60 + Z.of_N (latency second));
            EvLog INFO "Generated content successfully.";
            EvSleep (request_interval self);
            EvLog ERROR ("ValueError parsing text: " ++ exc_str ve)])).
    { subst r. rewrite (generate_content_retry_ok _ _ _ _ _ H1 Ht H2).
      rewrite (deliver_unparsable _ _ _ _ Htext Hcls).
      destruct (request_interval self <? 0);
        now rewrite advance_advance. }
    clearbody r. subst r.
    destruct (Z.ltb_spec (request_interval self) 0) as [Hneg|Hpos].
    + split; [|split; [|split; [|split]]].
      * exists (trace w ++
                [EvLog INFO "Sending prompt to the generative model.";
                 EvGenerate prompt (now w) t1;
                 EvLog WARNING
                   ("Error 500/503 encountered, retrying in 1 minute: " ++
                    exc_str e);
                 EvSleep 60])%list,
          (t1 + 60), (t1 + 60 + Z.of_N (latency second)),
          [EvLog INFO "Generated content successfully."].
        cbn [snd advance trace]. rewrite <- app_assoc.
        split; [reflexivity|]. split; [reflexivity|]. lia.
      * intros He. subst first. congruence.
      * intros _. reflexivity.
      * lia.
      * intros _. reflexivity.
    + split; [|split; [|split; [|split]]].
      * exists (trace w ++
                [EvLog INFO "Sending prompt to the generative model.";
                 EvGenerate prompt (now w) t1;
                 EvLog WARNING
                   ("Error 500/503 encountered, retrying in 1 minute: " ++
                    exc_str e);
                 EvSleep 60])%list,
          (t1 + 60), (t1 + 60 + Z.of_N (latency second)),
          [EvLog INFO "Generated content successfully.";
           EvSleep (request_interval self);
           EvLog ERROR ("ValueError parsing text: " ++ exc_str ve)].
        cbn [snd advance trace now]. rewrite <- app_assoc.
        split; [reflexivity|]. split; [reflexivity|].
        intros _. split; reflexivity.
      * intros He. subst first. congruence.
      * intros _. reflexivity.
      * intros _. split; [reflexivity|]. now apply Hsame.
      * lia.
Qed.

Lemma generate_content_unparsable_witness :
  let self := mkContentGenerator unparsable (Some "k3y") "gemini-1.5-pro" 40 in
  let again :=
    mkContentGenerator unparsable_on_retry (Some "k3y") "gemini-1.5-pro" 40 in
  (fst (generate_content self "prompt" initial_world) = Returned None /\
   calls (snd (generate_content self "prompt" initial_world)) = 1%nat) /\
  (fst (generate_content again "prompt" initial_world) = Returned None /\
   calls (snd (generate_content again "prompt" initial_world)) = 2%nat).
Proof.
  intros self again. split.
  - pose proof (generate_content_unparsable self "prompt" initial_world
                  (mkResponse (Raised (mkExc ValueError "no valid Part")))
                  (mkExc ValueError "no valid Part")
                  (or_introl eq_refl) eq_refl eq_refl) as H.
    destruct H as [_ [Hfirst [_ [Hpos _]]]].
    split; [apply Hpos; cbn; lia | apply Hfirst; reflexivity].
  - pose proof (generate_content_unparsable again "prompt" initial_world
                  (mkResponse (Raised (mkExc ValueError "no valid Part")))
                  (mkExc ValueError "no valid Part")
                  (or_intror
                     (ex_intro _ (mkExc OtherException "503 Service Unavailable")
                        (conj eq_refl (conj eq_refl eq_refl))))
                  eq_refl eq_refl) as H.
    destruct H as [_ [_ [Hretry [Hpos _]]]].
    split; [apply Hpos; cbn; lia | apply Hretry; eexists; reflexivity].
Defined.

(** C5, as the specification words it, fails: a caller cannot tell a
    response that does not parse from a service error, for the generator
    returns the same [None] on both. *)
Lemma parse_failure_not_distinguished :
  let parsing := mkContentGenerator unparsable (Some "k3y") "gemini-1.5-pro" 40 in
  let failing := mkContentGenerator not_found (Some "k3y") "gemini-1.5-pro" 40 in
  outcome (respond unparsable 0 "prompt") =
    Responds (mkResponse (Raised (mkExc ValueError "no valid Part"))) /\
  outcome (respond not_found 0 "prompt") =
    Raises (mkExc OtherException "404 Not Found") /\
  fst (generate_content parsing "prompt" initial_world) = Returned None /\
  fst (generate_content failing "prompt" initial_world) = Returned None /\
  fst (generate_content parsing "prompt" initial_world) =
  fst (generate_content failing "prompt" initial_world).
Proof. intros parsing failing. repeat split. Qed.

(** *** The pause after a successful call *)

Lemma deliver_text (self : ContentGenerator) (resp : Response)
    (w w1 : World) (txt : string) :
  deliver self resp w = (Returned (Some txt), w1) ->
  0 <= request_interval self /\
  w1 = advance w (now w + request_interval self) (calls w)
         [EvLog INFO "Generated content successfully.";
          EvSleep (request_interval self)].
Proof.
  rewrite deliver_cases.
  destruct (Z.ltb_spec (request_interval self) 0) as [Hneg|Hpos];
    [discriminate|].
  destruct (text resp) as [t|ve]; [|destruct (exc_class ve); discriminate].
  intros H. injection H as _ <-. now split.
Qed.

(** Every run starts by calling the service, at the time the run starts. *)
Lemma generate_content_first_request (self : ContentGenerator)
    (prompt : string) (w : World) :
  exists finished rest,
    trace (snd (generate_content self prompt w)) =
      (trace w ++
       [EvLog INFO "Sending prompt to the generative model.";
        EvGenerate prompt (now w) finished] ++ rest)%list.
Proof.
  exists (now w + Z.of_N (latency (respond (genai self) (calls w) prompt))).
  destruct (outcome (respond (genai self) (calls w) prompt))
    as [e|resp] eqn:H1.
  - destruct (transient (exc_str e)) eqn:Ht.
    + destruct (outcome (respond (genai self) (S (calls w)) prompt))
        as [e2|resp] eqn:H2.
      * rewrite (generate_content_retry_failed _ _ _ _ _ H1 Ht H2).
        eexists. cbn [snd advance trace app]. reflexivity.
      * rewrite (generate_content_retry_ok _ _ _ _ _ H1 Ht H2).
        match goal with
        | |- context [deliver self resp ?w2] =>
            destruct (deliver_no_call self resp w2) as [_ [rest [Htr _]]]
        end.
        rewrite Htr. cbn [advance trace]. rewrite <- app_assoc.
        eexists. cbn [app]. reflexivity.
    + rewrite (generate_content_permanent _ _ _ _ H1 Ht).
      eexists. cbn [snd advance trace app]. reflexivity.
  - rewrite (generate_content_first_ok _ _ _ _ H1).
    match goal with
    | |- context [deliver self resp ?w2] =>
        destruct (deliver_no_call self resp w2) as [_ [rest [Htr _]]]
    end.
    rewrite Htr. cbn [advance trace]. rewrite <- app_assoc.
    eexists. cbn [app]. reflexivity.
Qed.

(** A run that returns text ends with the answered call, the success
    record and the pause. *)
Lemma generate_content_text (self : ContentGenerator) (prompt : string)
    (w w1 : World) (txt : string) :
  generate_content self prompt w = (Returned (Some txt), w1) ->
  exists tr started finished,
    trace w1 =
      (tr ++ [EvGenerate prompt started finished;
              EvLog INFO "Generated content successfully.";
              EvSleep (request_interval self)])%list /\
    0 <= request_interval self /\
    now w1 = finished + request_interval self.
Proof.
  destruct (outcome (respond (genai self) (calls w) prompt))
    as [e|resp] eqn:H1.
  - destruct (transient (exc_str e)) eqn:Ht.
    + destruct (outcome (respond (genai self) (S (calls w)) prompt))
        as [e2|resp] eqn:H2.
      * rewrite (generate_content_retry_failed _ _ _ _ _ H1 Ht H2).
        discriminate.
      * rewrite (generate_content_retry_ok _ _ _ _ _ H1 Ht H2).
        intros H. apply deliver_text in H. destruct H as [Hpos ->].
        eexists (trace w ++ [_; _; _; _])%list, _, _.
        split; [|split; [exact Hpos | reflexivity]].
        cbn [advance trace]. rewrite <- !app_assoc. reflexivity.
    + rewrite (generate_content_permanent _ _ _ _ H1 Ht). discriminate.
  - rewrite (generate_content_first_ok _ _ _ _ H1).
    intros H. apply deliver_text in H. destruct H as [Hpos ->].
    eexists (trace w ++ [_])%list, _, _.
    split; [|split; [exact Hpos | reflexivity]].
    cbn [advance trace]. rewrite <- !app_assoc. reflexivity.
Qed.

(** C7. A call that returns text has paused for [request_interval]
    seconds after the service answered and before returning, so a later
    call through the same generator reaches the service no sooner than
    [request_interval] after that answer.  The pause follows every answer
    of the service, whether or not its text can be read, and the interval
    is 40 unless the caller sets it. *)
Theorem generate_content_paces (self : ContentGenerator) (p1 p2 : string)
    (w w1 : World) (txt : string) :
  generate_content self p1 w = (Returned (Some txt), w1) ->
  (exists tr started finished,
     trace w1 =
       (tr ++ [EvGenerate p1 started finished;
               EvLog INFO "Generated content successfully.";
               EvSleep (request_interval self)])%list /\
     0 <= request_interval self /\
     now w1 = finished + request_interval self /\
     forall later, now w1 <= now later ->
       exists finished' rest,
         trace (snd (generate_content self p2 later)) =
           (trace later ++
            [EvLog INFO "Sending prompt to the generative model.";
             EvGenerate p2 (now later) finished'] ++ rest)%list /\
         finished + request_interval self <= now later) /\
  (forall resp w', 0 <= request_interval self ->
     now (snd (deliver self resp w')) = now w' + request_interval self /\
     exists rest,
       trace (snd (deliver self resp w')) =
         (trace w' ++
          [EvLog INFO "Generated content successfully.";
           EvSleep (request_interval self)] ++ rest)%list) /\
  (forall g key w0 c w0',
     init_default g key w0 = (Returned c, w0') -> request_interval c = 40).
Proof.
  intros H. split; [|split].
  - destruct (generate_content_text _ _ _ _ _ H)
      as [tr [started [finished [Htr [Hpos Hnow]]]]].
    exists tr, started, finished. repeat split; try assumption.
    intros later Hlater.
    destruct (generate_content_first_request self p2 later)
      as [finished' [rest Hreq]].
    exists finished', rest. split; [exact Hreq | lia].
  - intros resp w' Hpos. rewrite deliver_cases.
    destruct (Z.ltb_spec (request_interval self) 0) as [Hneg|_]; [lia|].
    destruct (text resp) as [t|ve]; [|destruct (exc_class ve)];
      (split; [reflexivity | eexists; cbn [snd advance trace app]; reflexivity]).
  - intros g key w0 c w0'. py_run.
    destruct (truthy key); cbn; intros Hc; [|discriminate].
    now injection Hc as <- _.
Qed.

(** A service that answers every call after two seconds. *)
Definition steady : GenAI :=
  mkGenAI (fun _ _ => mkReply 2 (Responds (mkResponse (Returned "report")))).

Lemma generate_content_paces_witness :
  let self := mkContentGenerator steady (Some "k3y") "gemini-1.5-pro" 40 in
  let w1 := snd (generate_content self "first" initial_world) in
  now w1 = 42 /\
  exists tr started finished,
    trace w1 =
      (tr ++ [EvGenerate "first" started finished;
              EvLog INFO "Generated content successfully.";
              EvSleep 40])%list /\
    forall later, now w1 <= now later ->
      exists finished' rest,
        trace (snd (generate_content self "second" later)) =
          (trace later ++
           [EvLog INFO "Sending prompt to the generative model.";
            EvGenerate "second" (now later) finished'] ++ rest)%list /\
        finished + 40 <= now later.
Proof.
  intros self w1. split; [reflexivity|].
  destruct (proj1 (generate_content_paces self "first" "second" initial_world
                     w1 "report" eq_refl))
    as [tr [started [finished [Htr [_ [_ Hlater]]]]]].
  exists tr, started, finished. split; [exact Htr | exact Hlater].
Defined.

(** *** Further properties of [generate_content] *)

(** The test of the handler: true exactly of the texts that hold "500" or
    "503" somewhere, whatever surrounds it. *)
Lemma transient_iff (excpt : string) :
  transient excpt = true <->
  exists pre post,
    excpt = (pre ++ "500" ++ post)%string \/
    excpt = (pre ++ "503" ++ post)%string.
Proof.
  unfold transient. rewrite orb_true_iff, !PyStr.contains_iff. split.
  - intros [[pre [post H]] | [pre [post H]]]; exists pre, post; tauto.
  - intros [pre [post [H | H]]]; [left | right]; now exists pre, post.
Qed.

(** How many calls a run makes once the first has raised, and what it has
    added to the trace by the time the handler is done. *)
Lemma generate_content_after_failure (self : ContentGenerator)
    (prompt : string) (w : World) (e : Exc) :
  let first := respond (genai self) (calls w) prompt in
  let t1 := now w + Z.of_N (latency first) in
  let r := generate_content self prompt w in
  outcome first = Raises e ->
  if transient (exc_str e) then
    calls (snd r) = S (S (calls w)) /\
    exists rest,
      trace (snd r) =
        (trace w ++
         [EvLog INFO "Sending prompt to the generative model.";
          EvGenerate prompt (now w) t1;
          EvLog WARNING
            ("Error 500/503 encountered, retrying in 1 minute: " ++ exc_str e);
          EvSleep 60] ++ rest)%list
  else
    calls (snd r) = S (calls w) /\
    trace (snd r) =
      (trace w ++
       [EvLog INFO "Sending prompt to the generative model.";
        EvGenerate prompt (now w) t1;
        EvLog ERROR ("Error generating content: " ++ exc_str e)])%list.
Proof.
  intros first t1 r H1. subst r.
  destruct (transient (exc_str e)) eqn:Ht.
  - destruct (outcome (respond (genai self) (S (calls w)) prompt))
      as [e2|resp] eqn:H2.
    + rewrite (generate_content_retry_failed _ _ _ _ _ H1 Ht H2).
      split; [reflexivity|]. eexists. cbn [snd advance trace]. reflexivity.
    + rewrite (generate_content_retry_ok _ _ _ _ _ H1 Ht H2).
      match goal with
      | |- context [deliver self resp ?w2] =>
          destruct (deliver_no_call self resp w2) as [Hc [rest [Htr _]]]
      end.
      split; [now rewrite Hc|].
      eexists. rewrite Htr. cbn [advance trace].
      rewrite <- app_assoc. cbn [app]. reflexivity.
  - rewrite (generate_content_permanent _ _ _ _ H1 Ht). split; reflexivity.
Qed.

(** Which errors [generate_content] retries.  When the first call of the
    service raises, the run calls the service a second time, after a sleep
    of 60 seconds, exactly when the text of the error holds "500" or "503"
    somewhere, whatever surrounds it; otherwise it stops at one call and
    never sleeps. *)
Theorem generate_content_retried_iff (self : ContentGenerator)
    (prompt : string) (w : World) (e : Exc) :
  let first := respond (genai self) (calls w) prompt in
  let r := generate_content self prompt w in
  let holds_status :=
    exists pre post,
      exc_str e = (pre ++ "500" ++ post)%string \/
      exc_str e = (pre ++ "503" ++ post)%string in
  outcome first = Raises e ->
  (calls (snd r) = S (S (calls w)) <-> holds_status) /\
  (calls (snd r) = S (calls w) <-> ~ holds_status) /\
  exists added,
    trace (snd r) = (trace w ++ added)%list /\
    (In (EvSleep 60) added <-> holds_status).
Proof.
  intros first r holds_status H1.
  pose proof (generate_content_after_failure self prompt w e H1) as H.
  cbv zeta in H. fold r in H.
  pose proof (transient_iff (exc_str e)) as Hiff. fold holds_status in Hiff.
  destruct (transient (exc_str e)).
  - destruct H as [Hc [rest Htr]].
    assert (Hs : holds_status) by now apply Hiff.
    split; [|split].
    + split; [intros _; exact Hs | intros _; exact Hc].
    + split; [intros Hone; rewrite Hc in Hone; lia | intros Hn; now destruct Hn].
    + eexists. split; [exact Htr|].
      split; [intros _; exact Hs|]. intros _. cbn. tauto.
  - destruct H as [Hc Htr].
    assert (Hs : ~ holds_status).
    { intros Hs. apply Hiff in Hs. discriminate. }
    split; [|split].
    + split; [intros Htwo; rewrite Hc in Htwo; lia | intros Hy; now destruct Hs].
    + split; [intros _; exact Hs | intros _; exact Hc].
    + eexists. split; [exact Htr|].
      split; [|intros Hy; now destruct Hs].
      cbn. intros [Hin | [Hin | [Hin | []]]]; discriminate.
Qed.

Lemma generate_content_retried_iff_witness :
  let self :=
    mkContentGenerator unavailable_once (Some "k3y") "gemini-1.5-pro" 40 in
  calls (snd (generate_content self "prompt" initial_world)) = 2%nat.
Proof.
  intros self.
  apply (proj1 (generate_content_retried_iff self "prompt" initial_world
                  (mkExc OtherException "503 Service Unavailable") eq_refl)).
  exists "", " Service Unavailable". now right.
Defined.

(** The service answers the first call with a readable text: the text is
    returned after one call and the pause. *)
Theorem generate_content_returns_text (self : ContentGenerator)
    (prompt : string) (w : World) (resp : Response) (txt : string) :
  let first := respond (genai self) (calls w) prompt in
  let t1 := now w + Z.of_N (latency first) in
  outcome first = Responds resp -> text resp = Returned txt ->
  0 <= request_interval self ->
  generate_content self prompt w =
    (Returned (Some txt),
     advance w (t1 + request_interval self) (S (calls w))
       [EvLog INFO "Sending prompt to the generative model.";
        EvGenerate prompt (now w) t1;
        EvLog INFO "Generated content successfully.";
        EvSleep (request_interval self)]).
Proof.
  intros first t1 H1 Htext Hpos.
  rewrite (generate_content_first_ok _ _ _ _ H1), deliver_cases.
  destruct (Z.ltb_spec (request_interval self) 0) as [Hneg|_]; [lia|].
  rewrite Htext, advance_advance. reflexivity.
Qed.

Lemma generate_content_returns_text_witness :
  let self := mkContentGenerator steady (Some "k3y") "gemini-1.5-pro" 40 in
  fst (generate_content self "prompt" initial_world) = Returned (Some "report").
Proof.
  intros self.
  refine (f_equal fst
            (generate_content_returns_text self "prompt" initial_world
               (mkResponse (Returned "report")) "report" eq_refl eq_refl _)).
  cbn. lia.
Defined.



(** A negative [request_interval] makes every answered call fail: the
    pause raises [ValueError] outside any handler, and the text the service
    sent is lost. *)
Theorem generate_content_negative_interval (self : ContentGenerator)
    (prompt : string) (w : World) (resp : Response) :
  outcome (respond (genai self) (calls w) prompt) = Responds resp ->
  request_interval self < 0 ->
  fst (generate_content self prompt w) =
    Raised (mkExc ValueError "sleep length must be non-negative") /\
  calls (snd (generate_content self prompt w)) = S (calls w).
Proof.
  intros H1 Hneg.
  rewrite (generate_content_first_ok _ _ _ _ H1), deliver_cases.
  destruct (Z.ltb_spec (request_interval self) 0) as [_|Hpos]; [|lia].
  split; reflexivity.
Qed.

Lemma generate_content_negative_interval_witness :
  let self := mkContentGenerator steady (Some "k3y") "gemini-1.5-pro" (-1) in
  fst (generate_content self "prompt" initial_world) =
    Raised (mkExc ValueError "sleep length must be non-negative").
Proof.
  intros self.
  refine (proj1 (generate_content_negative_interval self "prompt" initial_world
                   (mkResponse (Returned "report")) eq_refl _)).
  cbn. lia.
Defined.






(** What a run may touch: it calls the service once or twice, never moves
    the clock back, only adds events, and leaves every file as it was. *)
Theorem generate_content_effects (self : ContentGenerator) (prompt : string)
    (w : World) :
  let w' := snd (generate_content self prompt w) in
  (S (calls w) <= calls w' <= S (S (calls w)))%nat /\
  now w <= now w' /\
  files w' = files w /\
  exists evs, trace w' = (trace w ++ evs)%list.
Proof.
  assert (Hdeliver : forall resp w2,
    calls (snd (deliver self resp w2)) = calls w2 /\
    now w2 <= now (snd (deliver self resp w2)) /\
    files (snd (deliver self resp w2)) = files w2 /\
    exists evs, trace (snd (deliver self resp w2)) = (trace w2 ++ evs)%list).
  { intros resp w2. rewrite deliver_cases.
    destruct (Z.ltb_spec (request_interval self) 0) as [Hneg|Hpos];
      [|destruct (text resp) as [t|ve]; [|destruct (exc_class ve)]];
      cbn [snd advance now calls files trace];
      (split; [reflexivity|]); (split; [lia|]); (split; [reflexivity|]);
      eexists; reflexivity. }
  intros w'. subst w'.
  destruct (outcome (respond (genai self) (calls w) prompt))
    as [e1|resp] eqn:H1.
  - destruct (transient (exc_str e1)) eqn:Ht.
    + destruct (outcome (respond (genai self) (S (calls w)) prompt))
        as [e2|resp] eqn:H2.
      * rewrite (generate_content_retry_failed _ _ _ _ _ H1 Ht H2).
        cbn [snd advance now calls files trace].
        repeat split; try lia. eexists; reflexivity.
      * rewrite (generate_content_retry_ok _ _ _ _ _ H1 Ht H2).
        match goal with
        | |- context [deliver self resp ?w2] =>
            destruct (Hdeliver resp w2) as [Hc [Hn [Hf [evs Ht']]]]
        end.
        rewrite Hc, Hf, Ht'. cbn [advance now calls files trace] in *.
        repeat split; try lia.
        eexists. rewrite <- app_assoc. reflexivity.
    + rewrite (generate_content_permanent _ _ _ _ H1 Ht).
      cbn [snd advance now calls files trace].
      repeat split; try lia. eexists; reflexivity.
  - rewrite (generate_content_first_ok _ _ _ _ H1).
    match goal with
    | |- context [deliver self resp ?w2] =>
        destruct (Hdeliver resp w2) as [Hc [Hn [Hf [evs Ht']]]]
    end.
    rewrite Hc, Hf, Ht'. cbn [advance now calls files trace] in *.
    repeat split; try lia.
    eexists. rewrite <- app_assoc. reflexivity.
Qed.

(** The files are out of reach of the generator. *)
Lemma generate_content_files (self : ContentGenerator) (prompt : string)
    (w : World) :
  files (snd (generate_content self prompt w)) = files w.
Proof.
  assert (Hdeliver : forall resp w2,
    files (snd (deliver self resp w2)) = files w2).
  { intros resp w2. rewrite deliver_cases.
    destruct (request_interval self <? 0);
      [|destruct (text resp) as [t|ve]; [|destruct (exc_class ve)]];
      reflexivity. }
  destruct (outcome (respond (genai self) (calls w) prompt))
    as [e1|resp] eqn:H1.
  - destruct (transient (exc_str e1)) eqn:Ht.
    + destruct (outcome (respond (genai self) (S (calls w)) prompt))
        as [e2|resp] eqn:H2.
      * now rewrite (generate_content_retry_failed _ _ _ _ _ H1 Ht H2).
      * rewrite (generate_content_retry_ok _ _ _ _ _ H1 Ht H2).
        now rewrite Hdeliver.
    + now rewrite (generate_content_permanent _ _ _ _ H1 Ht).
  - rewrite (generate_content_first_ok _ _ _ _ H1). now rewrite Hdeliver.
Qed.

(** Every run reaches the service. *)
Lemma generate_content_calls (self : ContentGenerator) (prompt : string)
    (w : World) :
  (S (calls w) <= calls (snd (generate_content self prompt w)))%nat.
Proof.
  destruct (outcome (respond (genai self) (calls w) prompt))
    as [e1|resp] eqn:H1.
  - destruct (transient (exc_str e1)) eqn:Ht.
    + destruct (outcome (respond (genai self) (S (calls w)) prompt))
        as [e2|resp] eqn:H2.
      * rewrite (generate_content_retry_failed _ _ _ _ _ H1 Ht H2). cbn. lia.
      * rewrite (generate_content_retry_ok _ _ _ _ _ H1 Ht H2).
        rewrite (proj1 (deliver_no_call _ _ _)). cbn. lia.
    + rewrite (generate_content_permanent _ _ _ _ H1 Ht). cbn. lia.
  - rewrite (generate_content_first_ok _ _ _ _ H1).
    rewrite (proj1 (deliver_no_call _ _ _)). cbn. lia.
Qed.

End Content.

(** ** Analysis.py: [StockAnalysisPipeline] *)

Module Analysis.

Import Py.
Local Open Scope string_scope.
Local Open Scope Z_scope.
Local Open Scope py_scope.

Record StockAnalysisPipeline := mkPipeline {
  stock : string;
  scraper : Scraper.StockScraper;
  generator : Content.ContentGenerator
}.

(** [StockAnalysisPipeline.__init__] *)
Definition init (company : string) (genai : Content.GenAI)
    (api_key : option string) (exchange : string) : M StockAnalysisPipeline :=
  let stock := PyStr.upper company in
  let scraper := Scraper.init stock exchange in
  generator <- Content.init_default genai api_key ;;
  ret (mkPipeline stock scraper generator).

(** The dictionary [get_stock_properties] returns, each value as text. *)
Definition StockData : Type := gmap string string.

(** ["error" in stock_data] *)
Definition has_error (stock_data : StockData) : bool :=
  match stock_data !! "error" with Some _ => true | None => false end.

Definition newline : string := String (ascii_of_nat 10) "".

(** The fixed part of the prompt. *)
Definition prompt_sections : string :=
  "Generate an in-depth and actionable stock analysis report covering the following sections:" ++ newline ++ newline ++
  "1. **Company Overview**: Provide a concise description of the company, its industry, and its current stock price, including a brief note on recent performance trends." ++ newline ++
  "2. **Key Metrics**: Highlight essential financial metrics (e.g., P/E ratio, Industry P/E ratio, EPS, ROE) and discuss significant observations or anomalies." ++ newline ++
  "3. **SWOT Analysis**: Identify and elaborate on the company's Strengths, Weaknesses, Opportunities, and Threats, emphasizing factors that influence stock performance. Please not consider book value vs stock value." ++ newline ++
  "4. **Recent News Highlights**: Summarize key news or events affecting the company, focusing on their potential impact on stock performance." ++ newline ++
  "5. **Technical Analysis**: provide a visual rating based on voting given in technical analysis(e.g., in star format)." ++ newline ++
  "6. **Investment Recommendation**: Offer a clear recommendation (Buy, Sell, or Hold) for the next 3-6 months, supported by both technical and fundamental analysis insights." ++ newline ++ newline ++
  "Ensure the report is well-structured, jargon-free, and focuses on delivering actionable insights over raw data. Use the provided data as the basis for your analysis:" ++ newline.

(** [if progress_callback: progress_callback(current, total)] *)
Definition report_progress (progress_callback : option (Z -> Z -> M unit))
    (current total : Z) : M unit :=
  match progress_callback with
  | Some callback => callback current total
  | None => ret tt
  end.

Section Pipeline.

(** [StockScraper.get_stock_properties]: the scraped pages as a dictionary,
    which holds the key "error" when a page could not be fetched. *)
Variable get_stock_properties : Scraper.StockScraper -> StockData.

(** [str(stock_data)], as the f-string of the prompt formats it. *)
Variable str_of_dict : StockData -> string.

(** [StockAnalysisPipeline.run_pipeline] *)
Definition run_pipeline (self : StockAnalysisPipeline)
    (progress_callback : option (Z -> Z -> M unit)) : M unit :=
  log INFO "Starting stock analysis pipeline..." ;;;
  let steps := 3 in
  let stock_data := get_stock_properties (scraper self) in
  if has_error stock_data then
    log ERROR "Error scraping stock data. Pipeline will stop."
  else
    report_progress progress_callback 1 steps ;;;
    let prompt :=
      prompt_sections ++ "**Company**: " ++ str_of_dict stock_data ++ newline in
    log INFO "Creating prompt for generative model." ;;;
    analysis_result <- Content.generate_content (generator self) prompt ;;
    report_progress progress_callback 2 steps ;;;
    let file_path := stock self ++ "_analysis.md" in
    open_and_write file_path analysis_result ;;;
    report_progress progress_callback 3 steps ;;;
    if truthy analysis_result then
      log INFO "Analysis successfully generated."
    else
      log ERROR "Stock analysis failed to generate content.".

(** The prompt of a run. *)
Definition prompt_of (self : StockAnalysisPipeline) : string :=
  prompt_sections ++ "**Company**: " ++
  str_of_dict (get_stock_properties (scraper self)) ++ newline.

(** When the pages were scraped and the generator returns [None], the run
    opens the report file, which creates it empty, and then raises
    [TypeError] out of [f.write(None)]. *)
Lemma run_pipeline_generation_failed (self : StockAnalysisPipeline)
    (w w1 : World) :
  has_error (get_stock_properties (scraper self)) = false ->
  Content.generate_content (generator self) (prompt_of self)
    (advance w (now w) (calls w)
       [EvLog INFO "Starting stock analysis pipeline...";
        EvLog INFO "Creating prompt for generative model."]) =
    (Returned None, w1) ->
  let r := run_pipeline self None w in
  fst r = Raised (mkExc TypeError "write() argument must be str, not None") /\
  files (snd r) !! (stock self ++ "_analysis.md") = Some "" /\
  trace (snd r) = (trace w1 ++ [EvOpen (stock self ++ "_analysis.md")])%list.
Proof.
  intros Hok Hgen r. subst r. unfold run_pipeline, prompt_of in *.
  rewrite Hok.
  cbv beta iota zeta delta [bind log emit report_progress ret].
  cbn [now calls trace files].
  match type of Hgen with
  | Content.generate_content _ _ ?wa = _ =>
      match goal with
      | |- context [Content.generate_content _ _ ?wb] =>
          replace wb with wa
            by (unfold advance; cbn [now calls trace files];
                now rewrite <- app_assoc)
      end
  end.
  rewrite Hgen.
  cbv beta iota zeta delta [open_and_write].
  cbn [fst snd now calls trace files].
  repeat split. apply lookup_insert_eq.
Qed.

End Pipeline.

(** *** A run whose generation step fails *)

(** The scraped pages of one company, and their text. *)
Definition scraped : StockData :=
  {[ "stock_name" := "Reliance Industries Ltd" ]}.

Definition scraped_str : string := "{'stock_name': 'Reliance Industries Ltd'}".

(** The pipeline for RELIANCE, over a service that answers 404. *)
Definition reliance : StockAnalysisPipeline :=
  mkPipeline "RELIANCE" (Scraper.init "RELIANCE" "NSE")
    (Content.mkContentGenerator Content.not_found (Some "k3y")
       Content.default_model_name Content.default_request_interval).

(** C6 on that run.  The pages are scraped, the generator logs the 404 and
    returns [None]; the run then opens [RELIANCE_analysis.md] for writing,
    which leaves an empty report file where there was none, and
    [f.write(None)] raises [TypeError] out of [run_pipeline]: the last
    record, "Stock analysis failed to generate content.", is never
    logged. *)
Theorem run_pipeline_failed_generation_creates_file :
  let r :=
    run_pipeline (fun _ => scraped) (fun _ => scraped_str) reliance None
      initial_world in
  has_error scraped = false /\
  In (EvLog ERROR "Error generating content: 404 Not Found") (trace (snd r)) /\
  files initial_world !! "RELIANCE_analysis.md" = None /\
  files (snd r) !! "RELIANCE_analysis.md" = Some "" /\
  In (EvOpen "RELIANCE_analysis.md") (trace (snd r)) /\
  fst r = Raised (mkExc TypeError "write() argument must be str, not None") /\
  ~ In (EvLog ERROR "Stock analysis failed to generate content.")
       (trace (snd r)).
Proof.
  intros r.
  assert (Hgen :
    Content.generate_content (generator reliance)
      (prompt_of (fun _ => scraped) (fun _ => scraped_str) reliance)
      (advance initial_world 0 0
         [EvLog INFO "Starting stock analysis pipeline...";
          EvLog INFO "Creating prompt for generative model."]) =
    (Returned None,
     advance initial_world 1 1
       [EvLog INFO "Starting stock analysis pipeline...";
        EvLog INFO "Creating prompt for generative model.";
        EvLog INFO "Sending prompt to the generative model.";
        EvGenerate
          (prompt_of (fun _ => scraped) (fun _ => scraped_str) reliance) 0 1;
        EvLog ERROR "Error generating content: 404 Not Found"])).
  { rewrite (Content.generate_content_permanent (generator reliance)
               (prompt_of (fun _ => scraped) (fun _ => scraped_str) reliance)
               (advance initial_world 0 0
                  [EvLog INFO "Starting stock analysis pipeline...";
                   EvLog INFO "Creating prompt for generative model."])
               (mkExc OtherException "404 Not Found") eq_refl eq_refl).
    now rewrite advance_advance. }
  destruct (run_pipeline_generation_failed (fun _ => scraped)
              (fun _ => scraped_str) reliance initial_world _ eq_refl Hgen)
    as [Hr [Hfile Htrace]].
  fold r in Hr, Hfile, Htrace.
  split; [reflexivity|].
  split; [rewrite Htrace; cbn; do 4 right; left; reflexivity|].
  split; [reflexivity|].
  split; [exact Hfile|].
  split; [rewrite Htrace; apply in_or_app; right; now left|].
  split; [exact Hr|].
  rewrite Htrace. cbn [advance trace initial_world app In].
  intros [H|[H|[H|[H|[H|[H|[]]]]]]]; discriminate.
Qed.

(** *** Further runs of the pipeline *)

(** A progress callback that records each call. *)
Definition record_progress (current total : Z) : M unit :=
  emit (EvProgress current total).

Section PipelineRuns.

Variable get_stock_properties : Scraper.StockScraper -> StockData.
Variable str_of_dict : StockData -> string.

Let run := run_pipeline get_stock_properties str_of_dict.
Let prompt := prompt_of get_stock_properties str_of_dict.

(** When the scraped dictionary holds the key "error" the run stops at
    once: two log records, no progress report (the callback is never
    called, whatever it is), no call of the model and no file touched. *)
Theorem run_pipeline_scrape_error (self : StockAnalysisPipeline)
    (progress_callback : option (Z -> Z -> M unit)) (w : World) :
  has_error (get_stock_properties (scraper self)) = true ->
  run self progress_callback w =
    (Returned tt,
     advance w (now w) (calls w)
       [EvLog INFO "Starting stock analysis pipeline...";
        EvLog ERROR "Error scraping stock data. Pipeline will stop."]).
Proof.
  intros Herr. subst run. unfold run_pipeline. rewrite Herr.
  cbv beta iota zeta delta [bind log emit ret]. cbn [now calls trace files].
  f_equal. unfold advance. f_equal. now rewrite <- app_assoc.
Qed.

(** The world in which the model is called, once the pages are scraped and
    the first checkpoint is recorded. *)
Definition before_generation (w : World) : World :=
  advance w (now w) (calls w)
    [EvLog INFO "Starting stock analysis pipeline...";
     EvProgress 1 3;
     EvLog INFO "Creating prompt for generative model."].

Lemma run_pipeline_generation (self : StockAnalysisPipeline) (w : World)
    (callback : Z -> Z -> M unit) :
  (forall current, callback current 3 = record_progress current 3) ->
  has_error (get_stock_properties (scraper self)) = false ->
  run self (Some callback) w =
    match Content.generate_content (generator self) (prompt self)
            (before_generation w) with
    | (Raised e, w1) => (Raised e, w1)
    | (Returned None, w1) =>
        (Raised (mkExc TypeError "write() argument must be str, not None"),
         {| now := now w1; calls := calls w1;
            trace := trace w1 ++
                     [EvProgress 2 3; EvOpen (stock self ++ "_analysis.md")];
            files := <[stock self ++ "_analysis.md" := ""]> (files w1) |})
    | (Returned (Some txt), w1) =>
        (Returned tt,
         {| now := now w1; calls := calls w1;
            trace := trace w1 ++
                     [EvProgress 2 3; EvOpen (stock self ++ "_analysis.md");
                      EvWrite (stock self ++ "_analysis.md") txt;
                      EvProgress 3 3;
                      if truthy (Some txt)
                      then EvLog INFO "Analysis successfully generated."
                      else EvLog ERROR
                             "Stock analysis failed to generate content."];
            files := <[stock self ++ "_analysis.md" := txt]> (files w1) |})
    end.
Proof.
  intros Hcb Hok. subst run prompt. unfold run_pipeline, prompt_of.
  rewrite Hok. cbv beta iota zeta delta [report_progress]. rewrite !Hcb.
  cbv beta iota zeta delta [bind log emit report_progress record_progress ret].
  cbn [now calls trace files].
  match goal with
  | |- context [Content.generate_content _ _ ?wb] =>
      replace wb with (before_generation w)
        by (unfold before_generation, advance; cbn [now calls trace files];
            now rewrite <- !app_assoc)
  end.
  destruct (Content.generate_content _ _ (before_generation w))
    as [[[txt|]|e] w1]; [| |reflexivity].
  - cbv beta iota zeta delta [open_and_write]. cbn [now calls trace files].
    destruct (truthy (Some txt));
      cbv beta iota zeta delta [bind log emit ret];
      cbn [now calls trace files];
      rewrite insert_insert_eq, <- !app_assoc; reflexivity.
  - cbv beta iota zeta delta [open_and_write]. cbn [now calls trace files].
    now rewrite <- !app_assoc.
Qed.


(** Outside the report file of its company, a run changes no file,
    however it ends. *)
Lemma run_pipeline_other_files (self : StockAnalysisPipeline) (w : World)
    (callback : Z -> Z -> M unit) (path : string) :
  (forall current, callback current 3 = record_progress current 3) ->
  path <> stock self ++ "_analysis.md" ->
  files (snd (run self (Some callback) w)) !! path = files w !! path.
Proof.
  intros Hcb Hpath.
  destruct (has_error (get_stock_properties (scraper self))) eqn:Herr.
  - unfold run. unfold run_pipeline. rewrite Herr.
    cbv beta iota zeta delta [bind log emit ret]. reflexivity.
  - rewrite (run_pipeline_generation _ _ _ Hcb Herr).
    pose proof (Content.generate_content_files (generator self) (prompt self)
                  (before_generation w)) as Hfiles.
    destruct (Content.generate_content _ _ (before_generation w))
      as [[[txt|]|e] w1]; cbn [snd files] in *; rewrite ?Hfiles;
      try reflexivity; now rewrite lookup_insert_ne.
Qed.

(** A callback that makes no call of the model service. *)
Definition leaves_service (callback : Z -> Z -> M unit) : Prop :=
  forall current total w, calls (snd (callback current total w)) = calls w.

(** A computation after which the service has received no fewer calls. *)
Definition keeps_calls {A} (m : M A) : Prop :=
  forall w, (calls w <= calls (snd (m w)))%nat.

Lemma bind_run {A B} (m : M A) (k : A -> M B) (w : World) :
  bind m k w =
    match m w with
    | (Returned a, w1) => k a w1
    | (Raised e, w1) => (Raised e, w1)
    end.
Proof. reflexivity. Qed.

Lemma keeps_calls_bind {A B} (m : M A) (k : A -> M B) :
  keeps_calls m -> (forall a, keeps_calls (k a)) -> keeps_calls (bind m k).
Proof.
  intros Hm Hk w. unfold bind. specialize (Hm w).
  destruct (m w) as [[a|e] w1]; cbn [snd] in *; [|exact Hm].
  specialize (Hk a w1). lia.
Qed.

Lemma keeps_calls_log (level : LogLevel) (msg : string) :
  keeps_calls (log level msg).
Proof. intros w. cbn. lia. Qed.

Lemma keeps_calls_open_and_write (path : string) (content : option string) :
  keeps_calls (open_and_write path content).
Proof. intros w. unfold open_and_write. destruct content; cbn; lia. Qed.

Lemma report_progress_calls (progress_callback : option (Z -> Z -> M unit))
    (current total : Z) (w : World) :
  (forall callback,
     progress_callback = Some callback -> leaves_service callback) ->
  calls (snd (report_progress progress_callback current total w)) = calls w.
Proof.
  intros Hcb. destruct progress_callback as [callback|]; [|reflexivity].
  now apply (Hcb callback).
Qed.

(** Once the pages are scraped, the run goes by its first progress report:
    if the callback raises there the run ends with that exception; if it
    returns, or there is none, the model is called. *)
Lemma run_pipeline_reaches_service (self : StockAnalysisPipeline)
    (progress_callback : option (Z -> Z -> M unit)) (w : World) :
  has_error (get_stock_properties (scraper self)) = false ->
  (forall callback,
     progress_callback = Some callback -> leaves_service callback) ->
  match
    report_progress progress_callback 1 3
      (advance w (now w) (calls w)
         [EvLog INFO "Starting stock analysis pipeline..."])
  with
  | (Raised e, w1) =>
      run self progress_callback w = (Raised e, w1) /\ calls w1 = calls w
  | (Returned _, w1) =>
      (S (calls w) <= calls (snd (run self progress_callback w)))%nat
  end.
Proof.
  intros Hok Hcb. subst run. unfold run_pipeline. rewrite Hok.
  rewrite bind_run. cbv beta iota zeta delta [log emit advance].
  rewrite bind_run.
  match goal with
  | |- context [report_progress progress_callback 1 3 ?w0] =>
      pose proof (report_progress_calls progress_callback 1 3 w0 Hcb) as Hc;
      destruct (report_progress progress_callback 1 3 w0) as [[[]|e] w1]
  end;
    cbn [snd calls] in Hc; [|split; [reflexivity | exact Hc]].
  rewrite bind_run. cbv beta iota.
  match goal with
  | |- context [bind (Content.generate_content ?g ?p) ?k ?w2] =>
      pose proof (Content.generate_content_calls g p w2) as Hgen;
      assert (Hrest : forall a, keeps_calls (k a));
      [|rewrite bind_run;
        destruct (Content.generate_content g p w2) as [[a|e] w3];
        cbn [snd calls] in *;
        [specialize (Hrest a w3); lia | lia]]
  end.
  intros a.
  assert (Hreport : forall current, keeps_calls
            (report_progress progress_callback current 3)).
  { intros current w2. rewrite report_progress_calls by exact Hcb. lia. }
  repeat (apply keeps_calls_bind; [|intros _]);
    try apply Hreport; try apply keeps_calls_open_and_write.
  destruct (truthy a); intros w2; cbn; lia.
Qed.

End PipelineRuns.

(** The scraped pages of a company that could not be fetched. *)
Definition unreachable : StockData := {[ "error" := "503 Server Error" ]}.

Lemma run_pipeline_scrape_error_witness :
  run_pipeline (fun _ => unreachable) (fun _ => "") reliance
    (Some (fun _ _ => raise (mkExc OtherException "callback")))
    initial_world =
  (Returned tt,
   advance initial_world 0 0
     [EvLog INFO "Starting stock analysis pipeline...";
      EvLog ERROR "Error scraping stock data. Pipeline will stop."]).
Proof.
  exact (run_pipeline_scrape_error (fun _ => unreachable) (fun _ => "")
           reliance (Some (fun _ _ => raise (mkExc OtherException "callback")))
           initial_world eq_refl).
Defined.

(** The pipeline for RELIANCE, over a service that answers. *)
Definition reliance_steady : StockAnalysisPipeline :=
  mkPipeline "RELIANCE" (Scraper.init "RELIANCE" "NSE")
    (Content.mkContentGenerator Content.steady (Some "k3y")
       Content.default_model_name Content.default_request_interval).


(** *** Building the pipeline *)

(** For a company and an exchange written in ASCII: the constructor of the
    pipeline fails, with the [ValueError] of the generator, exactly when the
    key is [None] or empty.  Otherwise the pipeline and its scraper agree on
    one upper-case symbol, the exchange is upper-case too, and the generator
    has the defaults (model "gemini-1.5-pro", 40 seconds between calls). *)
Theorem init_pipeline (company exchange : string) (genai : Content.GenAI)
    (key : option string) (w : World) :
  let r := init company genai key exchange w in
  PyStr.isascii company = true -> PyStr.isascii exchange = true ->
  (key = None \/ key = Some "" ->
   fst r = Raised (mkExc ValueError "API key is required.")) /\
  (forall k, key = Some k -> k <> "" ->
   exists p, fst r = Returned p /\
     stock p = PyStr.upper company /\
     Scraper.stock (scraper p) = stock p /\
     Scraper.exchange (scraper p) = PyStr.upper exchange /\
     Content.genai (generator p) = genai /\
     Content.api_key (generator p) = key /\
     Content.model_name (generator p) = "gemini-1.5-pro" /\
     Content.request_interval (generator p) = 40).
Proof.
  intros r _ _. subst r. unfold init. split.
  - intros Hkey. apply Content.truthy_false in Hkey.
    Content.py_run. rewrite Hkey. reflexivity.
  - intros k -> Hk. destruct k as [|c k]; [contradiction|].
    eexists. split; [reflexivity|]. cbn [stock scraper generator].
    repeat split. unfold Scraper.init. cbn [Scraper.stock].
    apply PyStr.upper_idempotent.
Qed.

(** A pipeline that was built has the upper-case symbol, and building it
    touched no file. *)
Lemma init_returned (company exchange : string) (genai : Content.GenAI)
    (key : option string) (w w' : World) (p : StockAnalysisPipeline) :
  init company genai key exchange w = (Returned p, w') ->
  stock p = PyStr.upper company /\ files w' = files w.
Proof.
  unfold init. Content.py_run.
  destruct (truthy key); cbn; intros H; [|discriminate].
  injection H as <- <-. split; reflexivity.
Qed.

Lemma init_pipeline_witness :
  (exists p,
     fst (init "reliance" Content.steady (Some "k3y") "nse" initial_world) =
       Returned p /\
     stock p = "RELIANCE" /\ Scraper.stock (scraper p) = "RELIANCE" /\
     Scraper.exchange (scraper p) = "NSE") /\
  fst (init "reliance" Content.steady None "nse" initial_world) =
    Raised (mkExc ValueError "API key is required.").
Proof.
  split.
  - destruct (proj2 (init_pipeline "reliance" "nse" Content.steady
                       (Some "k3y") initial_world eq_refl eq_refl)
                "k3y" eq_refl)
      as [p [Hp [Hs [Hsc [Hex _]]]]]; [discriminate|].
    exists p. rewrite Hsc, Hs, Hex. repeat split. exact Hp.
  - apply (init_pipeline "reliance" "nse" Content.steady None initial_world
             eq_refl eq_refl).
    now left.
Defined.

End Analysis.

(** ** main.py: what the page does once "Run Analysis" is pressed *)

Module Main.

Import Py.
Local Open Scope string_scope.
Local Open Scope Z_scope.
Local Open Scope py_scope.

(** What the page shows after the run. *)
Inductive Shown :=
| StSuccess (body : string)
| StMarkdown (body : string)
| StError (body : string).

(** [update_progress]: the division [current_step / total_steps] raises on
    a total of zero; otherwise the bar and the status text are updated,
    which the world records as the call. *)
Definition update_progress (current_step total_steps : Z) : M unit :=
  if total_steps =? 0 then raise (mkExc OtherException "division by zero")
  else emit (EvProgress current_step total_steps).

(** [open(path, "r", encoding="utf-8")] and [read()]: the content, or
    [None] for the [FileNotFoundError] that the page handles. *)
Definition read_text (path : string) : M (option string) :=
  fun w => (Returned (files w !! path), w).

Section Page.

Variable get_stock_properties : Scraper.StockScraper -> Analysis.StockData.
Variable str_of_dict : Analysis.StockData -> string.

(** The [genai] module and [os.getenv('GENAI_API_KEY')]. *)
Variable genai : Content.GenAI.
Variable GENAI_API_KEY : option string.

(** The body of [if st.sidebar.button("Run Analysis"):] for the symbol
    picked in the side bar. *)
Definition run_analysis (company_symbol : string) : M (list Shown) :=
  pipeline <- Analysis.init company_symbol genai GENAI_API_KEY "NSE" ;;
  Analysis.run_pipeline get_stock_properties str_of_dict pipeline
    (Some update_progress) ;;;
  let done := StSuccess ("✅ Analysis completed for " ++ company_symbol) in
  md_file <- read_text ("C" ++ company_symbol ++ "_analysis.md") ;;
  match md_file with
  | Some body => ret [done; StMarkdown body]
  | None =>
      ret [done;
           StError "Markdown file not found. Please check if the pipeline generated it."]
  end.

(** For a symbol written in ASCII, the page looks for the report under a
    name the pipeline never writes: the pipeline saves
    [<SYMBOL>_analysis.md], the page opens [C<symbol>_analysis.md].  Unless
    such a file was there before the run, a run that completes always ends
    with "Markdown file not found", and never shows a report. *)
Theorem run_analysis_report_not_found (company_symbol : string)
    (w w' : World) (shown : list Shown) :
  PyStr.isascii company_symbol = true ->
  files w !! ("C" ++ company_symbol ++ "_analysis.md") = None ->
  run_analysis company_symbol w = (Returned shown, w') ->
  shown =
    [StSuccess ("✅ Analysis completed for " ++ company_symbol);
     StError "Markdown file not found. Please check if the pipeline generated it."] /\
  files w' !! ("C" ++ company_symbol ++ "_analysis.md") = None.
Proof.
  intros _ Hnone. unfold run_analysis.
  unfold bind at 1.
  destruct (Analysis.init company_symbol genai GENAI_API_KEY "NSE" w)
    as [[p|e] w0] eqn:Hinit; [|discriminate].
  apply Analysis.init_returned in Hinit. destruct Hinit as [Hstock Hfiles].
  unfold bind at 1.
  pose proof (Analysis.run_pipeline_other_files get_stock_properties
                str_of_dict p w0 update_progress
                ("C" ++ company_symbol ++ "_analysis.md")
                (fun _ => eq_refl)) as Hframe.
  destruct (Analysis.run_pipeline get_stock_properties str_of_dict p
              (Some update_progress) w0) as [[[]|e] w1]; [|discriminate].
  cbn [snd] in Hframe.
  assert (Hlookup : files w1 !! ("C" ++ company_symbol ++ "_analysis.md") = None).
  { rewrite Hframe, Hfiles; [exact Hnone|].
    rewrite Hstock. intros Heq.
    apply (f_equal String.length) in Heq.
    rewrite !PyStr.length_append, PyStr.upper_length in Heq.
    cbn in Heq. lia. }
  unfold bind, read_text, ret. rewrite Hlookup.
  intros H. injection H as <- <-. split; [reflexivity | exact Hlookup].
Qed.

End Page.

(** A run for RELIANCE with a service that answers: the report is written,
    and the page does not find it. *)
Lemma run_analysis_report_not_found_witness :
  let r :=
    run_analysis (fun _ => Analysis.scraped) (fun _ => Analysis.scraped_str)
      Content.steady (Some "k3y") "RELIANCE" initial_world in
  files (snd r) !! "RELIANCE_analysis.md" = Some "report" /\
  fst r =
    Returned
      [StSuccess "✅ Analysis completed for RELIANCE";
       StError "Markdown file not found. Please check if the pipeline generated it."].
Proof.
  intros r. split; [vm_compute; reflexivity|].
  destruct r as [[shown|e] w'] eqn:Hr; [|vm_compute in Hr; discriminate].
  cbn [fst]. f_equal.
  exact (proj1 (run_analysis_report_not_found (fun _ => Analysis.scraped)
                  (fun _ => Analysis.scraped_str) Content.steady (Some "k3y")
                  "RELIANCE" initial_world w' shown eq_refl eq_refl Hr)).
Defined.

End Main.

(** ** More of Python: [str.strip], [str.replace] and [dict] *)

Module PyText.

(** The characters [str.strip] removes are those with [c.isspace()]:
    U+0009-000D, U+001C-0020, U+0085, U+00A0, U+1680, U+2000-200A, U+2028,
    U+2029, U+202F, U+205F and U+3000.  In UTF-8 the first ten are one byte,
    the next two are two bytes and the others three. *)

(** [c.isspace()] on a character of one byte. *)
Definition is_space (c : ascii) : bool :=
  let n := nat_of_ascii c in
  (((9 <=? n) && (n <=? 13)) || ((28 <=? n) && (n <=? 32)))%nat.

(** [c.isspace()] on a character of two bytes: U+0085 and U+00A0. *)
Definition is_space2 (b1 b2 : ascii) : bool :=
  let n1 := nat_of_ascii b1 in
  let n2 := nat_of_ascii b2 in
  ((n1 =? 194) && ((n2 =? 133) || (n2 =? 160)))%nat.

(** [c.isspace()] on a character of three bytes: U+1680, U+2000-200A,
    U+2028, U+2029, U+202F, U+205F and U+3000. *)
Definition is_space3 (b1 b2 b3 : ascii) : bool :=
  let n1 := nat_of_ascii b1 in
  let n2 := nat_of_ascii b2 in
  let n3 := nat_of_ascii b3 in
  (((n1 =? 225) && (n2 =? 154) && (n3 =? 128)) ||
   ((n1 =? 226) && (n2 =? 128) &&
    (((128 <=? n3) && (n3 <=? 138)) || (n3 =? 168) || (n3 =? 169) ||
     (n3 =? 175))) ||
   ((n1 =? 226) && (n2 =? 129) && (n3 =? 159)) ||
   ((n1 =? 227) && (n2 =? 128) && (n3 =? 128)))%nat.

(** The bytes left once the leading white space is dropped.  With
    [backwards] the list is a reversed string, each character coming last
    byte first. *)
Fixpoint lstrip_list (backwards : bool) (l : list ascii) : list ascii :=
  match l with
  | [] => []
  | c1 :: r1 =>
      if is_space c1 then lstrip_list backwards r1
      else
        match r1 with
        | [] => l
        | c2 :: r2 =>
            if (if backwards then is_space2 c2 c1 else is_space2 c1 c2)
            then lstrip_list backwards r2
            else
              match r2 with
              | [] => l
              | c3 :: r3 =>
                  if (if backwards then is_space3 c3 c2 c1
                      else is_space3 c1 c2 c3)
                  then lstrip_list backwards r3
                  else l
              end
        end
  end.

(** [s.strip()] *)
Definition strip (s : string) : string :=
  string_of_list_ascii
    (rev (lstrip_list true (rev (lstrip_list false (list_ascii_of_string s))))).

(** A no-break space (U+00A0) in front and an em space (U+2003) behind are
    stripped like the spaces of ASCII; the last byte of [à] (U+00E0), which
    is also the last byte of the no-break space, stays. *)
Lemma strip_beyond_ascii :
  let nbsp := String (ascii_of_nat 194) (String (ascii_of_nat 160) "") in
  let em_space :=
    String (ascii_of_nat 226)
      (String (ascii_of_nat 128) (String (ascii_of_nat 131) "")) in
  let a_grave := String (ascii_of_nat 195) (String (ascii_of_nat 160) "") in
  strip (" " ++ nbsp ++ "Sales " ++ em_space)%string = "Sales" /\
  strip (nbsp ++ "voil" ++ a_grave ++ em_space)%string =
    ("voil" ++ a_grave)%string /\
  strip ("voil" ++ a_grave)%string = ("voil" ++ a_grave)%string /\
  strip "  Net Profit " = "Net Profit".
Proof. repeat split. Qed.

(** The scan of [s.replace(old, new)] for a non-empty [old]: [skip] counts
    the characters of a match that are still to be passed over. *)
Fixpoint replace_from (old new : string) (skip : nat) (s : string) : string :=
  match s with
  | EmptyString => EmptyString
  | String c r =>
      match skip with
      | S k => replace_from old new k r
      | O =>
          if PyStr.startswith old s
          then (new ++ replace_from old new (String.length old - 1) r)%string
          else String c (replace_from old new 0 r)
      end
  end.

(** [s.replace(old, new)] for a non-empty [old]. *)
Definition replace (old new s : string) : string := replace_from old new 0 s.

End PyText.

Module PyDict.

Section Dict.

Context {V : Type}.

(** A [dict] with [str] keys: its items in insertion order, each key once. *)
Definition dict : Type := list (string * V).

(** [d.get(k)] *)
Fixpoint get (k : string) (d : dict) : option V :=
  match d with
  | [] => None
  | (k', v) :: r => if String.eqb k' k then Some v else get k r
  end.

(** [d[k] = v]: a known key keeps its place and takes the new value, a new
    key goes to the end. *)
Fixpoint set (k : string) (v : V) (d : dict) : dict :=
  match d with
  | [] => [(k, v)]
  | (k', v') :: r =>
      if String.eqb k' k then (k', v) :: r else (k', v') :: set k v r
  end.

(** [k in d] *)
Definition mem (k : string) (d : dict) : bool :=
  match get k d with Some _ => true | None => false end.

(** [list(d)] *)
Definition keys (d : dict) : list string := map fst d.

(** The dictionary a comprehension or a literal builds from its items, in
    the order they are evaluated. *)
Definition of_items (items : list (string * V)) : dict :=
  fold_left (fun d kv => set (fst kv) (snd kv) d) items [].

Lemma get_set_eq (k : string) (v : V) (d : dict) :
  get k (set k v d) = Some v.
Proof.
  induction d as [|[k' v'] r IH]; cbn.
  - now rewrite String.eqb_refl.
  - destruct (String.eqb k' k) eqn:E; cbn; rewrite E; [reflexivity | exact IH].
Qed.

Lemma get_set_ne (k k' : string) (v : V) (d : dict) :
  k <> k' -> get k' (set k v d) = get k' d.
Proof.
  intros Hne. induction d as [|[k0 v0] r IH]; cbn.
  - destruct (String.eqb_spec k k'); [contradiction | reflexivity].
  - destruct (String.eqb_spec k0 k) as [->|Hk]; cbn.
    + destruct (String.eqb_spec k k'); [contradiction | reflexivity].
    + destruct (String.eqb_spec k0 k'); [reflexivity | exact IH].
Qed.

Lemma keys_set (k : string) (v : V) (d : dict) :
  keys (set k v d) = if mem k d then keys d else keys d ++ [k].
Proof.
  unfold mem, keys. induction d as [|[k0 v0] r IH]; cbn; [reflexivity|].
  destruct (String.eqb_spec k0 k) as [->|Hk]; cbn; [reflexivity|].
  rewrite IH. now destruct (get k r).
Qed.

Lemma mem_keys (k : string) (d : dict) : mem k d = true <-> In k (keys d).
Proof.
  unfold mem. induction d as [|[k0 v0] r IH]; cbn.
  - split; [discriminate | contradiction].
  - destruct (String.eqb_spec k0 k) as [->|Hk].
    + split; [now left | reflexivity].
    + rewrite IH. split; [now right | intros [H|H]; [contradiction | exact H]].
Qed.

Lemma of_items_snoc (items : list (string * V)) (k : string) (v : V) :
  of_items (items ++ [(k, v)]) = set k v (of_items items).
Proof. unfold of_items. now rewrite fold_left_app. Qed.

(** Keys stay distinct. *)
Lemma keys_NoDup (items : list (string * V)) : NoDup (keys (of_items items)).
Proof.
  induction items as [|[k v] items IH] using rev_ind; [constructor|].
  rewrite of_items_snoc, keys_set.
  destruct (mem k (of_items items)) eqn:E; [exact IH|].
  apply NoDup_app. split; [exact IH|]. split.
  - intros x Hx Hin. apply list_elem_of_In in Hx, Hin.
    destruct Hin as [<-|[]]. apply mem_keys in Hx. congruence.
  - repeat constructor. intros H. apply list_elem_of_In in H. contradiction.
Qed.

(** Every key comes from an item. *)
Lemma keys_of_items (items : list (string * V)) (k : string) :
  In k (keys (of_items items)) -> In k (map fst items).
Proof.
  induction items as [|[k0 v0] items IH] using rev_ind; [contradiction|].
  rewrite of_items_snoc, keys_set, map_app, in_app_iff. cbn.
  destruct (mem k0 (of_items items)).
  - intros H. left. now apply IH.
  - rewrite in_app_iff. cbn. intros [H|H]; [left; now apply IH | now right].
Qed.

Lemma set_new (k : string) (v : V) (d : dict) :
  ~ In k (keys d) -> set k v d = d ++ [(k, v)].
Proof.
  unfold keys. induction d as [|[k0 v0] r IH]; cbn; [reflexivity|].
  intros Hnot. destruct (String.eqb_spec k0 k) as [->|Hk].
  - exfalso. apply Hnot. now left.
  - rewrite IH; [reflexivity|]. intros H. apply Hnot. now right.
Qed.

(** Items with distinct keys are kept as they are. *)
Lemma of_items_NoDup (items : list (string * V)) :
  NoDup (map fst items) -> of_items items = items.
Proof.
  induction items as [|[k v] items IH] using rev_ind; [reflexivity|].
  rewrite map_app. cbn [map fst]. intros Hnd.
  apply NoDup_app in Hnd. destruct Hnd as [Hl [Hdisj _]].
  rewrite of_items_snoc, IH by exact Hl.
  apply set_new. unfold keys. intros Hin.
  apply (Hdisj k); [now apply list_elem_of_In | now left].
Qed.

Lemma length_set (k : string) (v : V) (d : dict) :
  (length (set k v d) <= S (length d))%nat.
Proof.
  induction d as [|[k0 v0] r IH]; cbn; [lia|].
  destruct (String.eqb k0 k); cbn; lia.
Qed.

(** A dictionary has no more entries than the items it was built from. *)
Lemma length_of_items (items : list (string * V)) :
  (length (of_items items) <= length items)%nat.
Proof.
  induction items as [|[k v] items IH] using rev_ind; [reflexivity|].
  rewrite of_items_snoc, length_app. cbn [length].
  pose proof (length_set k v (of_items items)). lia.
Qed.

Lemma get_In (k : string) (v : V) (d : dict) :
  NoDup (keys d) -> In (k, v) d -> get k d = Some v.
Proof.
  unfold keys. induction d as [|[k0 v0] r IH]; cbn; [contradiction|].
  intros Hnd [H|H].
  - injection H as -> ->. now rewrite String.eqb_refl.
  - apply NoDup_cons in Hnd. destruct Hnd as [Hnot Hnd].
    destruct (String.eqb_spec k0 k) as [->|Hk]; [|now apply IH].
    exfalso. apply Hnot. apply list_elem_of_In.
    change k with (fst (k, v)). now apply in_map.
Qed.

End Dict.

End PyDict.

(** ** Scraper.py: the scraping methods of [StockScraper] *)

Module StockScraper.

Import Py.
Local Open Scope string_scope.
Local Open Scope Z_scope.
Local Open Scope py_scope.

(** The values the scraped dictionaries hold: a [str], a list of [str], or
    a dictionary of such values. *)
#[local] Unset Elimination Schemes.
Inductive PyVal :=
| VStr (s : string)
| VList (items : list string)
| VDict (entries : list (string * PyVal)).
#[local] Set Elimination Schemes.

(** An HTML table as the code reads it: the [.text] of every [th], and for
    every [tr] the [.text] of its [td] cells. *)
Record Table := mkTable { th : list string; tr : list (list string) }.

(** [requests.get(url)] followed by [raise_for_status()] and the parse of
    the page: a [RequestException] with its text, or the page. *)
Inductive HttpReply (P : Type) :=
| RequestException (msg : string)
| Fetched (page : P).
Arguments RequestException {P} msg.
Arguments Fetched {P} page.

(** The Google Finance page: the [.text] of the [div]s of class "Yfwt5"
    and of class "Adak". *)
Record NewsPage := mkNewsPage { news_items : list string; times : list string }.

(** The Screener page, as the [find] and [find_all] calls of
    [get_stock_properties] see it; a text is the [.text] of the tag that
    was found, [None] stands for a tag that was not. *)
Record CompanyPage := mkCompanyPage {
  h1 : option string;
  stock_info : option (list string);
  about : option string;
  key : option string;
  list_items : list (option string * option string);
  pros : option string;
  cons : option string;
  sector : option string;
  tables : list Table;
  shareholding_table : option Table
}.

Definition IndexError : Exc := mkExc OtherException "list index out of range".
Definition AttributeError : Exc :=
  mkExc OtherException "'NoneType' object has no attribute 'text'".

(** A computation that does not touch the world. *)
Definition lift {A} (r : Result A) : M A := fun w => (r, w).

(** [enumerate(l)] *)
Definition enumerate {A} (l : list A) : list (nat * A) :=
  combine (seq 0 (length l)) l.

(** *** [table_to_json] *)

(** The items of [{headers[i + 1]: td.text.strip() for i, td in
    enumerate(cells)}], from index [i] on. *)
Fixpoint row_items (headers : list string) (i : nat) (cells : list string) :
    Result (list (string * string)) :=
  match cells with
  | [] => Returned []
  | td :: rest =>
      match nth_error headers (S i) with
      | None => Raised IndexError
      | Some header =>
          match row_items headers (S i) rest with
          | Returned items => Returned ((header, PyText.strip td) :: items)
          | Raised e => Raised e
          end
      end
  end.

(** The dictionary of one row: [row.find_all('td')[1:]] against the
    headers. *)
Definition row_dict (headers : list string) (row : list string) :
    Result (PyDict.dict (V := string)) :=
  match row_items headers 0 (tl row) with
  | Returned items => Returned (PyDict.of_items items)
  | Raised e => Raised e
  end.

(** [row.find('td').text.strip()] *)
Definition row_label (row : list string) : Result string :=
  match row with
  | [] => Raised AttributeError
  | td :: _ => Returned (PyText.strip td)
  end.

(** A list comprehension whose body may raise. *)
Fixpoint for_each {A B} (f : A -> Result B) (l : list A) : Result (list B) :=
  match l with
  | [] => Returned []
  | a :: r =>
      match f a with
      | Raised e => Raised e
      | Returned b =>
          match for_each f r with
          | Raised e => Raised e
          | Returned bs => Returned (b :: bs)
          end
      end
  end.

(** A row has a cell for which there is no header: the comprehension
    reads [headers[i + 1]] for the cells after the first. *)
Definition too_wide (headers row : list string) : bool :=
  ((2 <=? length row) && (length headers <? length row))%nat.

Section Tables.

(** [pd.DataFrame(data, index=index).to_json(orient='index')] *)
Variable DataFrame_to_json :
  list (PyDict.dict (V := string)) -> list string -> Result string.

(** [StockScraper.table_to_json] *)
Definition table_to_json (table : Table) : Result string :=
  let headers := map PyText.strip (th table) in
  let rows := tl (tr table) in
  match for_each (row_dict headers) rows with
  | Raised e => Raised e
  | Returned data =>
      match for_each row_label rows with
      | Raised e => Raised e
      | Returned index => DataFrame_to_json data index
      end
  end.

End Tables.

(** *** [get_stock_news] *)

(** [times[i].text if i < len(times) else "Unknown Time"] *)
Definition news_key (times : list string) (i : nat) : string :=
  match nth_error times i with
  | Some t => t
  | None => "Unknown Time"
  end.

(** The items of the comprehension that builds [news]. *)
Definition news_entries (page : NewsPage) : list (string * PyVal) :=
  map (fun ix => (news_key (times page) (fst ix),
                  VList [PyText.strip (snd ix)]))
      (enumerate (news_items page)).

Section News.

(** The page Google Finance serves for a URL. *)
Variable get_news_page : string -> HttpReply NewsPage.

(** [StockScraper.get_stock_news] *)
Definition get_stock_news (self : Scraper.StockScraper) :
    M (PyDict.dict (V := PyVal)) :=
  let url :=
    "https://www.google.com/finance/quote/" ++ Scraper.stock self ++ ":" ++
    Scraper.exchange self ++ "?hl=en" in
  log INFO ("Fetching news from " ++ url) ;;;
  match get_news_page url with
  | RequestException msg =>
      log ERROR ("Error fetching news: " ++ msg) ;;;
      ret [("error", VStr msg)]
  | Fetched page =>
      log INFO "News fetched successfully." ;;;
      ret (PyDict.of_items (news_entries page))
  end.

End News.

(** *** [get_stock_properties] *)

(** [tag.text.strip() if tag else ""] *)
Definition text_or_empty (tag : option string) : string :=
  match tag with
  | Some t => PyText.strip t
  | None => ""
  end.

(** The line break and indentation that [replace] removes from a value. *)
Definition value_break : string := Analysis.newline ++ "        ".

(** The items of the comprehension that builds [props]: one for each [li]
    that has both spans. *)
Definition props_entries (lis : list (option string * option string)) :
    list (string * PyVal) :=
  flat_map
    (fun li =>
       match li with
       | (Some name, Some value) =>
           [(PyText.strip name,
             VStr (PyText.replace value_break "" (PyText.strip value)))]
       | _ => []
       end)
    lis.

(** The keys of [financial_data], in the order of the tables. *)
Definition financial_keys : list string :=
  ["quarterly_results"; "profit_and_loss"; "balance_sheet"; "cash_flow";
   "debtors_ratio"].

Section Properties.

Variable get_news_page : string -> HttpReply NewsPage.

(** The page Screener serves for a URL. *)
Variable get_company_page : string -> HttpReply CompanyPage.

Variable DataFrame_to_json :
  list (PyDict.dict (V := string)) -> list string -> Result string.

(** What [technical_analysis] logs and returns for a scraper. *)
Variable technical_analysis : Scraper.StockScraper -> list LogRecord * string.

(** The call of [self.technical_analysis()]. *)
Definition call_technical_analysis (self : Scraper.StockScraper) : M string :=
  fun w =>
    let '(records, label) := technical_analysis self in
    (Returned label,
     {| now := now w; calls := calls w;
        trace := trace w ++ map (fun r => EvLog (fst r) (snd r)) records;
        files := files w |}).

(** [self.table_to_json(tables[i]) if len(tables) > i else ""] *)
Definition table_json_at (tables : list Table) (i : nat) : Result string :=
  match nth_error tables i with
  | Some table => table_to_json DataFrame_to_json table
  | None => Returned ""
  end.

(** [stock_price, stock_change] *)
Definition price_and_change (page : CompanyPage) : Result (string * string) :=
  match stock_info page with
  | Some (first :: rest) =>
      match rest with
      | second :: _ => Returned (PyText.strip first, PyText.strip second)
      | [] => Raised IndexError
      end
  | _ => Returned ("", "")
  end.

(** [StockScraper.get_stock_properties] *)
Definition get_stock_properties (self : Scraper.StockScraper) :
    M (PyDict.dict (V := PyVal)) :=
  let url := "https://www.screener.in/company/" ++ Scraper.stock self in
  log INFO ("Fetching stock properties from " ++ url) ;;;
  match get_company_page url with
  | RequestException msg =>
      log ERROR ("Error fetching stock properties: " ++ msg) ;;;
      ret [("error", VStr msg)]
  | Fetched page =>
      match h1 page with
      | None =>
          log ERROR "Stock name not found." ;;;
          ret [("error", VStr "Stock name not found.")]
      | Some name =>
          let stock_name := PyText.strip name in
          price_change <- lift (price_and_change page) ;;
          let about_text := text_or_empty (about page) in
          let key_text := text_or_empty (key page) in
          let props := PyDict.of_items (props_entries (list_items page)) in
          let pros_text := text_or_empty (pros page) in
          let cons_text := text_or_empty (cons page) in
          let sector_text := text_or_empty (sector page) in
          financial_data <-
            lift (for_each (table_json_at (tables page)) (seq 0 5)) ;;
          shareholding <-
            lift (match shareholding_table page with
                  | Some table => table_to_json DataFrame_to_json table
                  | None => Returned ""
                  end) ;;
          news <- get_stock_news get_news_page self ;;
          label <- call_technical_analysis self ;;
          ret (PyDict.of_items
                 ([("stock_name", VStr stock_name);
                   ("stock_price", VStr (fst price_change));
                   ("stock_change", VStr (snd price_change));
                   ("news", VDict news);
                   ("about", VStr about_text);
                   ("key", VStr key_text);
                   ("properties", VDict props);
                   ("pros", VStr pros_text);
                   ("cons", VStr cons_text);
                   ("sector", VStr sector_text)] ++
                  combine financial_keys (map VStr financial_data) ++
                  [("shareholding_pattern", VStr shareholding);
                   ("technical_analysis", VStr label)]))
      end
  end.

End Properties.

(** The scraped dictionary as the pipeline sees it: the same keys, each
    value as the text [render] gives it. *)
Definition as_text (render : PyVal -> string) (d : PyDict.dict (V := PyVal)) :
    Analysis.StockData :=
  list_to_map (map (fun kv => (fst kv, render (snd kv))) d).

(** *** Properties of [table_to_json] *)

Lemma row_items_spec (headers : list string) (i : nat) (cells : list string) :
  row_items headers i cells =
    if ((length cells =? 0) || (length cells + S i <=? length headers))%nat
    then Returned (combine (skipn (S i) headers) (map PyText.strip cells))
    else Raised IndexError.
Proof.
  revert i. induction cells as [|td rest IH]; intros i.
  - cbn. now rewrite combine_nil.
  - cbn [row_items length map Nat.eqb orb].
    destruct (nth_error headers (S i)) as [header|] eqn:Hnth.
    + assert (Hlt : (S i < length headers)%nat)
        by (apply nth_error_Some; congruence).
      assert (Hskip : skipn (S i) headers = header :: skipn (S (S i)) headers).
      { clear IH. revert i Hnth Hlt.
        induction headers as [|h hs IHh]; intros i Hnth Hlt;
          [cbn in Hlt; lia|].
        destruct i as [|i].
        - destruct hs as [|h' hs']; [discriminate|].
          cbn in Hnth. injection Hnth as ->. reflexivity.
        - cbn [nth_error] in Hnth. cbn [length] in Hlt.
          change (skipn (S (S i)) (h :: hs)) with (skipn (S i) hs).
          change (skipn (S (S (S i))) (h :: hs)) with (skipn (S (S i)) hs).
          apply IHh; [exact Hnth | lia]. }
      rewrite IH, Hskip.
      destruct (Nat.leb_spec (S (length rest) + S i) (length headers))
        as [Hle|Hgt].
      * destruct rest as [|td' rest']; [reflexivity|].
        cbn [length Nat.eqb orb] in *.
        destruct (Nat.leb_spec (S (length rest') + S (S i)) (length headers));
          [reflexivity | lia].
      * destruct rest as [|td' rest']; [cbn [length] in Hgt; lia|].
        cbn [length Nat.eqb orb] in *.
        destruct (Nat.leb_spec (S (length rest') + S (S i)) (length headers));
          [lia | reflexivity].
    + assert (Hge : (length headers <= S i)%nat)
        by (now apply nth_error_None).
      destruct (Nat.leb_spec (S (length rest) + S i) (length headers));
        [lia | reflexivity].
Qed.

(** One row: the headers after the first are paired with the cells after
    the first, and a cell without a header raises [IndexError]. *)
Lemma row_dict_spec (headers row : list string) :
  row_dict headers row =
    if too_wide headers row then Raised IndexError
    else Returned (PyDict.of_items
                     (combine (tl headers) (map PyText.strip (tl row)))).
Proof.
  unfold row_dict, too_wide. rewrite row_items_spec.
  change (skipn 1 headers) with (tl headers).
  destruct row as [|td cells]; [reflexivity|]. cbn [tl length].
  destruct cells as [|td' cells]; [reflexivity|]. cbn [length Nat.eqb orb].
  change (2 <=? S (S (length cells)))%nat with true. cbn [andb].
  destruct (Nat.leb_spec (S (length cells) + 1) (length headers)),
    (Nat.ltb_spec (length headers) (S (S (length cells))));
    try reflexivity; lia.
Qed.

Lemma for_each_row_dict (headers : list string) (rows : list (list string)) :
  for_each (row_dict headers) rows =
    if existsb (too_wide headers) rows then Raised IndexError
    else Returned
           (map (fun row =>
                   PyDict.of_items
                     (combine (tl headers) (map PyText.strip (tl row))))
                rows).
Proof.
  induction rows as [|row rows IH]; [reflexivity|].
  cbn [for_each existsb map]. rewrite row_dict_spec, IH.
  destruct (too_wide headers row); [reflexivity|]. cbn [orb].
  now destruct (existsb (too_wide headers) rows).
Qed.

Lemma for_each_row_label (rows : list (list string)) :
  for_each row_label rows =
    if existsb (fun row => (length row =? 0)%nat) rows
    then Raised AttributeError
    else Returned (map (fun row => PyText.strip (hd "" row)) rows).
Proof.
  induction rows as [|row rows IH]; [reflexivity|].
  cbn [for_each existsb map]. rewrite IH.
  destruct row as [|td cells]; [reflexivity|]. cbn [row_label length Nat.eqb orb hd].
  now destruct (existsb _ rows).
Qed.

(** What [table_to_json] does with a table.  The first [tr] is skipped.
    If some other row has a cell without a header, the result is
    [IndexError], even when an earlier row has no cell at all; else if
    some row has no cell, it is [AttributeError]; else pandas receives one
    dictionary for each row (the headers after the first against the
    cells after the first) and the first cells as the index. *)
Theorem table_to_json_cases
    (DataFrame_to_json :
       list (PyDict.dict (V := string)) -> list string -> Result string)
    (table : Table) :
  let headers := map PyText.strip (th table) in
  let rows := tl (tr table) in
  table_to_json DataFrame_to_json table =
    if existsb (too_wide headers) rows then Raised IndexError
    else if existsb (fun row => (length row =? 0)%nat) rows
    then Raised AttributeError
    else DataFrame_to_json
           (map (fun row =>
                   PyDict.of_items
                     (combine (tl headers) (map PyText.strip (tl row))))
                rows)
           (map (fun row => PyText.strip (hd "" row)) rows).
Proof.
  intros headers rows. unfold table_to_json. fold headers rows.
  rewrite for_each_row_dict, for_each_row_label.
  destruct (existsb (too_wide headers) rows); [reflexivity|].
  now destruct (existsb _ rows).
Qed.

(** *** Properties of [get_stock_news] *)

Lemma combine_snoc {A B} (l : list A) (l' : list B) (a : A) (b : B) :
  length l = length l' ->
  combine (l ++ [a])%list (l' ++ [b])%list = (combine l l' ++ [(a, b)])%list.
Proof.
  revert l'. induction l as [|x l IH]; intros [|y l'] Hlen;
    try discriminate; [reflexivity|].
  cbn. f_equal. apply IH. now injection Hlen.
Qed.

Lemma enumerate_snoc {A} (l : list A) (a : A) :
  enumerate (l ++ [a])%list = (enumerate l ++ [(length l, a)])%list.
Proof.
  unfold enumerate. rewrite length_app. cbn [length].
  rewrite Nat.add_1_r, seq_S. cbn [Nat.add].
  apply combine_snoc. now rewrite length_seq.
Qed.

Lemma news_entries_keys (page : NewsPage) :
  map fst (news_entries page) =
  map (news_key (times page)) (seq 0 (length (news_items page))).
Proof.
  unfold news_entries, enumerate. rewrite map_map. cbn [fst].
  rewrite <- (map_map fst (news_key (times page))).
  f_equal. generalize 0%nat.
  induction (news_items page) as [|a l IH]; intros n; [reflexivity|].
  cbn. now rewrite IH.
Qed.

Section NewsFacts.

Variable get_news_page : string -> HttpReply NewsPage.

Let news_url (self : Scraper.StockScraper) : string :=
  "https://www.google.com/finance/quote/" ++ Scraper.stock self ++ ":" ++
  Scraper.exchange self ++ "?hl=en".

(** News items for which the page has no timestamp all take the key
    "Unknown Time", so only the last of them is kept; and the dictionary
    never has more entries than there are timestamps, plus one. *)
Theorem get_stock_news_unknown_time (self : Scraper.StockScraper)
    (w : World) (page : NewsPage) :
  get_news_page (news_url self) = Fetched page ->
  (length (times page) < length (news_items page))%nat ->
  exists news,
    fst (get_stock_news get_news_page self w) = Returned news /\
    PyDict.get "Unknown Time" news =
      Some (VList [PyText.strip (List.last (news_items page) "")]) /\
    (length news <= S (length (times page)))%nat.
Proof.
  intros Hpage Hlt. subst news_url. unfold get_stock_news.
  cbv beta iota zeta delta [bind log emit ret]. rewrite Hpage.
  cbv beta iota zeta delta [bind log emit ret]. cbn [fst].
  eexists. split; [reflexivity|]. split.
  - destruct page as [items ts]. cbn [news_items times] in *.
    destruct items as [|a l] using rev_ind; [cbn in Hlt; lia|].
    unfold news_entries. cbn [news_items times].
    rewrite enumerate_snoc, map_app. cbn [map fst snd].
    rewrite PyDict.of_items_snoc, List.last_last.
    replace (news_key ts (length l)) with "Unknown Time".
    + apply PyDict.get_set_eq.
    + unfold news_key. rewrite length_app in Hlt. cbn [length] in Hlt.
      destruct (nth_error ts (length l)) eqn:E; [|reflexivity].
      assert ((length l < length ts)%nat)
        by (apply nth_error_Some; congruence).
      lia.
  - pose proof (PyDict.keys_NoDup (news_entries page)) as Hnd.
    assert (Hincl : incl (PyDict.keys (PyDict.of_items (news_entries page)))
                         ("Unknown Time" :: times page)).
    { intros k Hk. apply PyDict.keys_of_items in Hk.
      rewrite news_entries_keys in Hk. apply in_map_iff in Hk.
      destruct Hk as [i [<- _]]. unfold news_key.
      destruct (nth_error (times page) i) eqn:E; [|now left].
      right. eapply nth_error_In. exact E. }
    apply NoDup_ListNoDup in Hnd.
    pose proof (List.NoDup_incl_length Hnd Hincl) as Hlen.
    unfold PyDict.keys in Hlen. rewrite length_map in Hlen. exact Hlen.
Qed.

(** When the timestamps are distinct and there is one for every news
    item, nothing is lost: the dictionary holds every item, in order,
    under its own timestamp. *)
Theorem get_stock_news_dated (self : Scraper.StockScraper) (w : World)
    (page : NewsPage) :
  get_news_page (news_url self) = Fetched page ->
  List.NoDup (times page) ->
  (length (news_items page) <= length (times page))%nat ->
  fst (get_stock_news get_news_page self w) =
    Returned (map (fun ti => (fst ti, VList [PyText.strip (snd ti)]))
                  (combine (times page) (news_items page))).
Proof.
  intros Hpage Hnd Hle. subst news_url. unfold get_stock_news.
  cbv beta iota zeta delta [bind log emit ret]. rewrite Hpage.
  cbv beta iota zeta delta [bind log emit ret]. cbn [fst]. f_equal.
  assert (Hentries :
    news_entries page =
    map (fun ti => (fst ti, VList [PyText.strip (snd ti)]))
        (combine (times page) (news_items page))).
  { unfold news_entries, enumerate, news_key.
    destruct page as [items ts]. cbn [news_items times] in *. clear Hpage Hnd.
    assert (Hgen : forall (items ts : list string) n pre,
      length pre = n -> (length items <= length ts)%nat ->
      map (fun ix : nat * string =>
             (match nth_error (pre ++ ts)%list (fst ix) with
              | Some t => t
              | None => "Unknown Time"
              end, VList [PyText.strip (snd ix)]))
          (combine (seq n (length items)) items) =
      map (fun ti : string * string =>
             (fst ti, VList [PyText.strip (snd ti)]))
          (combine ts items)).
    { clear. induction items as [|a l IH]; intros ts n pre Hpre Hlen.
      - cbn. now rewrite combine_nil.
      - destruct ts as [|t ts]; [cbn in Hlen; lia|].
        cbn [length seq combine map fst snd].
        rewrite nth_error_app2 by lia. rewrite Hpre, Nat.sub_diag.
        cbn [nth_error]. f_equal.
        specialize (IH ts (S n) (pre ++ [t])%list).
        rewrite <- app_assoc in IH. cbn [app] in IH. apply IH.
        + rewrite length_app. cbn. lia.
        + cbn in Hlen. lia. }
    exact (Hgen items ts 0%nat [] eq_refl Hle). }
  rewrite Hentries. apply PyDict.of_items_NoDup.
  rewrite map_map. cbn [fst].
  assert (Hfst : map (fun ti : string * string => fst ti)
                     (combine (times page) (news_items page)) =
                 firstn (length (news_items page)) (times page)).
  { clear Hpage Hnd Hentries. revert Hle.
    generalize (news_items page) as items. generalize (times page) as ts.
    induction ts as [|t ts IH]; intros items Hle.
    - destruct items; [reflexivity | cbn in Hle; lia].
    - destruct items as [|a items]; [reflexivity|].
      cbn. f_equal. apply IH. cbn in Hle. lia. }
  rewrite Hfst.
  rewrite <- (firstn_skipn (length (news_items page)) (times page)) in Hnd.
  apply NoDup_ListNoDup in Hnd. apply NoDup_app in Hnd. tauto.
Qed.

End NewsFacts.

(** *** Properties of [get_stock_properties] *)

Lemma for_each_length {A B} (f : A -> Result B) (l : list A) (bs : list B) :
  for_each f l = Returned bs -> length bs = length l.
Proof.
  revert bs. induction l as [|a l IH]; intros bs; cbn [for_each].
  - intros H. now injection H as <-.
  - destruct (f a) as [b|e]; [|discriminate].
    destruct (for_each f l) as [bs'|e]; [|discriminate].
    intros H. injection H as <-. cbn. f_equal. now apply IH.
Qed.

Section PropertiesFacts.

Variable get_news_page : string -> HttpReply NewsPage.
Variable get_company_page : string -> HttpReply CompanyPage.
Variable DataFrame_to_json :
  list (PyDict.dict (V := string)) -> list string -> Result string.
Variable technical_analysis : Scraper.StockScraper -> list LogRecord * string.

Let scrape := get_stock_properties get_news_page get_company_page
                DataFrame_to_json technical_analysis.

Let company_url (self : Scraper.StockScraper) : string :=
  "https://www.screener.in/company/" ++ Scraper.stock self.

(** How a scrape that gets past the name of the company ends. *)
Lemma scrape_named (self : Scraper.StockScraper) (w : World)
    (page : CompanyPage) (name : string) (d : PyDict.dict (V := PyVal))
    (w' : World) :
  get_company_page (company_url self) = Fetched page ->
  h1 page = Some name ->
  scrape self w = (Returned d, w') ->
  exists price_change financial_data shareholding news w1 w2,
    price_and_change page = Returned price_change /\
    length financial_data = 5%nat /\
    get_stock_news get_news_page self w1 = (Returned news, w2) /\
    d = PyDict.of_items
          ([("stock_name", VStr (PyText.strip name));
            ("stock_price", VStr (fst price_change));
            ("stock_change", VStr (snd price_change));
            ("news", VDict news);
            ("about", VStr (text_or_empty (about page)));
            ("key", VStr (text_or_empty (key page)));
            ("properties",
             VDict (PyDict.of_items (props_entries (list_items page))));
            ("pros", VStr (text_or_empty (pros page)));
            ("cons", VStr (text_or_empty (cons page)));
            ("sector", VStr (text_or_empty (sector page)))] ++
           combine financial_keys (map VStr financial_data) ++
           [("shareholding_pattern", VStr shareholding);
            ("technical_analysis", VStr (snd (technical_analysis self)))])%list.
Proof.
  intros Hpage Hname. subst scrape company_url. unfold get_stock_properties.
  cbv beta iota zeta delta [bind log emit ret lift]. rewrite Hpage, Hname.
  cbv beta iota zeta delta [bind log emit ret lift].
  destruct (price_and_change page) as [pc|e]; [|discriminate].
  destruct (for_each (table_json_at DataFrame_to_json (tables page)) (seq 0 5))
    as [fd|e] eqn:Hfd; [|discriminate].
  destruct (match shareholding_table page with
            | Some table => table_to_json DataFrame_to_json table
            | None => Returned ""
            end) as [sh|e]; [|discriminate].
  match goal with
  | |- context [get_stock_news get_news_page self ?w1] =>
      destruct (get_stock_news get_news_page self w1) as [[news|e] w2] eqn:Hnews;
        [|discriminate]
  end.
  unfold call_technical_analysis.
  destruct (technical_analysis self) as [records label].
  intros H. injection H as <- _.
  eexists pc, fd, sh, news, _, w2.
  split; [reflexivity|]. split; [|split; [exact Hnews | reflexivity]].
  now rewrite (for_each_length _ _ _ Hfd).
Qed.

(** A dictionary that [get_stock_properties] returns has the key "error"
    exactly when the company page could not be fetched or had no name.  No
    other failure puts it there. *)
Theorem get_stock_properties_error_key (self : Scraper.StockScraper)
    (w w' : World) (d : PyDict.dict (V := PyVal)) :
  scrape self w = (Returned d, w') ->
  PyDict.mem "error" d =
    match get_company_page (company_url self) with
    | RequestException _ => true
    | Fetched page =>
        match h1 page with None => true | Some _ => false end
    end.
Proof.
  intros H.
  destruct (get_company_page (company_url self)) as [msg|page] eqn:Hpage.
  - subst scrape company_url. unfold get_stock_properties in H.
    cbv beta iota zeta delta [bind log emit ret lift] in H.
    rewrite Hpage in H. cbv beta iota zeta delta [bind log emit ret lift] in H.
    injection H as <- _. reflexivity.
  - destruct (h1 page) as [name|] eqn:Hname.
    + destruct (scrape_named _ _ _ _ _ _ Hpage Hname H)
        as [pc [fd [sh [news [w1 [w2 [_ [Hlen [_ ->]]]]]]]]].
      destruct fd as [|f1 [|f2 [|f3 [|f4 [|f5 [|f6 fd]]]]]]; try discriminate.
      reflexivity.
    + subst scrape company_url. unfold get_stock_properties in H.
      cbv beta iota zeta delta [bind log emit ret lift] in H.
      rewrite Hpage, Hname in H.
      cbv beta iota zeta delta [bind log emit ret lift] in H.
      injection H as <- _. reflexivity.
Qed.

(** When the price block of the page has exactly one [span], reading the
    second one raises [IndexError], which nothing handles: the scrape ends
    there, before the tables are read and before any news is requested. *)
Theorem get_stock_properties_one_span (self : Scraper.StockScraper)
    (w : World) (page : CompanyPage) (name only : string) :
  get_company_page (company_url self) = Fetched page ->
  h1 page = Some name ->
  stock_info page = Some [only] ->
  scrape self w =
    (Raised IndexError,
     advance w (now w) (calls w)
       [EvLog INFO ("Fetching stock properties from " ++ company_url self)]).
Proof.
  intros Hpage Hname Hinfo. subst scrape company_url.
  unfold get_stock_properties.
  cbv beta iota zeta delta [bind log emit ret lift]. rewrite Hpage, Hname.
  cbv beta iota zeta delta [bind log emit ret lift].
  unfold price_and_change. rewrite Hinfo. reflexivity.
Qed.

End PropertiesFacts.

Section Failures.

Variable get_news_page : string -> HttpReply NewsPage.
Variable get_company_page : string -> HttpReply CompanyPage.
Variable DataFrame_to_json :
  list (PyDict.dict (V := string)) -> list string -> Result string.
Variable yf_download : string -> Scraper.DataFrame.
Variable ta_rsi : nat -> Scraper.Series -> float.
Variable ta_macd : Scraper.Series -> float.
Variable ta_macd_signal : Scraper.Series -> float.
Variable ta_bollinger_hband : nat -> Z -> Scraper.Series -> float.
Variable ta_bollinger_lband : nat -> Z -> Scraper.Series -> float.
Variable ta_ema_indicator : nat -> Scraper.Series -> float.
Variable alg : PyFloat.SumAlgorithm.

Let scrape :=
  get_stock_properties get_news_page get_company_page DataFrame_to_json
    (Scraper.technical_analysis yf_download ta_rsi ta_macd ta_macd_signal
       ta_bollinger_hband ta_bollinger_lband ta_ema_indicator alg).

(** A failed news request and an empty price download do not make the
    scrape fail: its dictionary has no key "error"; the two failures sit
    under "news" and "technical_analysis". *)
Theorem get_stock_properties_hides_failures (self : Scraper.StockScraper)
    (w w' : World) (d : PyDict.dict (V := PyVal)) (page : CompanyPage)
    (name msg : string) :
  get_company_page ("https://www.screener.in/company/" ++ Scraper.stock self) =
    Fetched page ->
  h1 page = Some name ->
  get_news_page
    ("https://www.google.com/finance/quote/" ++ Scraper.stock self ++ ":" ++
     Scraper.exchange self ++ "?hl=en") = RequestException msg ->
  yf_download (Scraper.stock self ++ ".NS") = [] ->
  scrape self w = (Returned d, w') ->
  PyDict.mem "error" d = false /\
  PyDict.get "news" d = Some (VDict [("error", VStr msg)]) /\
  PyDict.get "technical_analysis" d =
    Some (VStr "Data fetch failed. Check the stock symbol.").
Proof.
  intros Hpage Hname Hnews Hdf H.
  destruct (scrape_named _ _ _ _ _ _ _ _ _ _ Hpage Hname H)
    as [pc [fd [sh [news [w1 [w2 [_ [Hlen [Hn ->]]]]]]]]].
  unfold get_stock_news in Hn.
  cbv beta iota zeta delta [bind log emit ret] in Hn. rewrite Hnews in Hn.
  cbv beta iota zeta delta [bind log emit ret] in Hn.
  injection Hn as <- _.
  unfold Scraper.technical_analysis. rewrite Hdf. cbn [Scraper.empty snd].
  destruct fd as [|f1 [|f2 [|f3 [|f4 [|f5 [|f6 fd]]]]]]; try discriminate.
  repeat split.
Qed.

End Failures.

(** *** The scraped dictionary in the pipeline *)

Lemma has_error_as_text (render : PyVal -> string)
    (d : PyDict.dict (V := PyVal)) :
  Analysis.has_error (as_text render d) = PyDict.mem "error" d.
Proof.
  unfold Analysis.has_error, as_text, PyDict.mem, Analysis.StockData.
  induction d as [|[k v] d IH]; [reflexivity|].
  cbn [map fst snd PyDict.get]. rewrite list_to_map_cons.
  destruct (String.eqb_spec k "error") as [->|Hk].
  - now rewrite lookup_insert_eq.
  - rewrite lookup_insert_ne by exact Hk. exact IH.
Qed.

(** A dictionary without the key "error" lets the pipeline go on to the
    model, whatever failures it holds under its other keys.  With no
    callback, or with a callback that returns from its first call, the run
    makes at least one call of the model service.  With a callback that
    raises on its first call the run ends there, with that exception and
    before any call of the service.  (The callback itself is taken to make
    no call of the service.) *)
Theorem run_pipeline_calls_model (render : PyVal -> string)
    (str_of_dict : Analysis.StockData -> string)
    (d : PyDict.dict (V := PyVal)) (pipeline : Analysis.StockAnalysisPipeline)
    (progress_callback : option (Z -> Z -> M unit)) (w : World) :
  let r :=
    Analysis.run_pipeline (fun _ => as_text render d) str_of_dict pipeline
      progress_callback w in
  let started :=
    advance w (now w) (calls w)
      [EvLog INFO "Starting stock analysis pipeline..."] in
  PyDict.mem "error" d = false ->
  (forall callback,
     progress_callback = Some callback -> Analysis.leaves_service callback) ->
  (progress_callback = None -> (S (calls w) <= calls (snd r))%nat) /\
  (forall callback w1,
     progress_callback = Some callback ->
     callback 1 3 started = (Returned tt, w1) ->
     (S (calls w) <= calls (snd r))%nat) /\
  (forall callback e w1,
     progress_callback = Some callback ->
     callback 1 3 started = (Raised e, w1) ->
     r = (Raised e, w1) /\ calls w1 = calls w).
Proof.
  intros r started Hd Hcb.
  assert (Hok : Analysis.has_error (as_text render d) = false)
    by now rewrite has_error_as_text.
  pose proof (Analysis.run_pipeline_reaches_service
                (fun _ => as_text render d) str_of_dict pipeline
                progress_callback w Hok Hcb) as H.
  fold started in H. fold r in H.
  split; [|split].
  - intros ->. exact H.
  - intros callback w1 -> H1. cbn [Analysis.report_progress] in H.
    now rewrite H1 in H.
  - intros callback e w1 -> H1. cbn [Analysis.report_progress] in H.
    now rewrite H1 in H.
Qed.

(** *** Pages to run the scraper on *)

(** Three news items, two of them dated. *)
Definition three_items : NewsPage :=
  mkNewsPage [" Results beat estimates "; "New plant opens"; "Board meets"]
             ["2 hours ago"; "1 day ago"].

(** Two news items, both dated. *)
Definition two_items : NewsPage :=
  mkNewsPage [" Results beat estimates "; "New plant opens"]
             ["2 hours ago"; "1 day ago"].

Definition quarterly : Table :=
  mkTable [""; "Mar 2024"; "Jun 2024"]
          [[]; ["Sales"; " 10 "; "12"]; ["Net Profit"; "2"; "3"]].

Definition company : CompanyPage :=
  mkCompanyPage (Some " Reliance Industries Ltd ")
    (Some ["1,250"; "-0.4%"]) (Some "Energy and retail.") None
    [(Some "Market Cap", Some "17,00,000 Cr."); (Some "Stock P/E", None)]
    (Some "Pros") None (Some "Oil and gas") [quarterly] (Some quarterly).

(** The same page with a single [span] in its price block. *)
Definition company_one_span : CompanyPage :=
  mkCompanyPage (Some " Reliance Industries Ltd ")
    (Some ["1,250"]) None None [] None None None [] None.

Definition to_json (data : list (PyDict.dict (V := string)))
    (index : list string) : Result string :=
  Returned "{}".

Definition quiet_analysis (self : Scraper.StockScraper) :
    list LogRecord * string :=
  Scraper.technical_analysis Scraper.unknown_ticker Scraper.quiet_rsi
    Scraper.quiet_line Scraper.quiet_line (Scraper.quiet_band 110)
    (Scraper.quiet_band 90) Scraper.quiet_ema PyFloat.PlainSum self.

Lemma get_stock_news_unknown_time_witness :
  exists news,
    fst (get_stock_news (fun _ => Fetched three_items)
           (Scraper.init "reliance" "nse") initial_world) = Returned news /\
    PyDict.get "Unknown Time" news = Some (VList ["Board meets"]) /\
    (length news <= 3)%nat.
Proof.
  apply (get_stock_news_unknown_time (fun _ => Fetched three_items)
           (Scraper.init "reliance" "nse") initial_world three_items eq_refl).
  cbn. lia.
Defined.

Lemma get_stock_news_dated_witness :
  fst (get_stock_news (fun _ => Fetched two_items)
         (Scraper.init "reliance" "nse") initial_world) =
  Returned [("2 hours ago", VList ["Results beat estimates"]);
            ("1 day ago", VList ["New plant opens"])].
Proof.
  apply (get_stock_news_dated (fun _ => Fetched two_items)
           (Scraper.init "reliance" "nse") initial_world two_items eq_refl).
  - repeat constructor; cbn; intuition discriminate.
  - cbn. lia.
Defined.

Lemma get_stock_properties_error_key_witness :
  match fst (get_stock_properties (fun _ => RequestException "timeout")
               (fun _ => Fetched company) to_json quiet_analysis
               (Scraper.init "reliance" "nse") initial_world) with
  | Returned d => PyDict.mem "error" d = false
  | Raised _ => False
  end.
Proof.
  destruct (get_stock_properties (fun _ => RequestException "timeout")
              (fun _ => Fetched company) to_json quiet_analysis
              (Scraper.init "reliance" "nse") initial_world)
    as [[d|e] w'] eqn:H; cbn [fst].
  - exact (get_stock_properties_error_key (fun _ => RequestException "timeout")
             (fun _ => Fetched company) to_json quiet_analysis
             (Scraper.init "reliance" "nse") initial_world w' d H).
  - vm_compute in H. discriminate.
Defined.

Lemma get_stock_properties_one_span_witness :
  fst (get_stock_properties (fun _ => Fetched two_items)
         (fun _ => Fetched company_one_span) to_json quiet_analysis
         (Scraper.init "reliance" "nse") initial_world) = Raised IndexError.
Proof.
  exact (f_equal fst
           (get_stock_properties_one_span (fun _ => Fetched two_items)
              (fun _ => Fetched company_one_span) to_json quiet_analysis
              (Scraper.init "reliance" "nse") initial_world company_one_span
              " Reliance Industries Ltd " "1,250" eq_refl eq_refl eq_refl)).
Defined.

Lemma get_stock_properties_hides_failures_witness :
  match fst (get_stock_properties (fun _ => RequestException "timeout")
               (fun _ => Fetched company) to_json quiet_analysis
               (Scraper.init "reliance" "nse") initial_world) with
  | Returned d =>
      PyDict.mem "error" d = false /\
      PyDict.get "news" d = Some (VDict [("error", VStr "timeout")]) /\
      PyDict.get "technical_analysis" d =
        Some (VStr "Data fetch failed. Check the stock symbol.")
  | Raised _ => False
  end.
Proof.
  destruct (get_stock_properties (fun _ => RequestException "timeout")
              (fun _ => Fetched company) to_json quiet_analysis
              (Scraper.init "reliance" "nse") initial_world)
    as [[d|e] w'] eqn:H; cbn [fst].
  - exact (get_stock_properties_hides_failures
             (fun _ => RequestException "timeout") (fun _ => Fetched company)
             to_json Scraper.unknown_ticker Scraper.quiet_rsi
             Scraper.quiet_line Scraper.quiet_line (Scraper.quiet_band 110)
             (Scraper.quiet_band 90) Scraper.quiet_ema PyFloat.PlainSum
             (Scraper.init "reliance" "nse") initial_world w' d company
             " Reliance Industries Ltd " "timeout" eq_refl eq_refl eq_refl
             eq_refl H).
  - vm_compute in H. discriminate.
Defined.

Lemma run_pipeline_calls_model_witness :
  let scraped :=
    as_text (fun _ => "")
      [("technical_analysis",
        VStr "Data fetch failed. Check the stock symbol.")] in
  (1 <=
   calls (snd (Analysis.run_pipeline (fun _ => scraped) (fun _ => "")
                 Analysis.reliance_steady None initial_world)))%nat /\
  (1 <=
   calls (snd (Analysis.run_pipeline (fun _ => scraped) (fun _ => "")
                 Analysis.reliance_steady (Some Analysis.record_progress)
                 initial_world)))%nat.
Proof.
  intros scraped. split.
  - refine (proj1 (run_pipeline_calls_model (fun _ => "") (fun _ => "")
                     [("technical_analysis",
                       VStr "Data fetch failed. Check the stock symbol.")]
                     Analysis.reliance_steady None initial_world eq_refl _)
              eq_refl).
    intros callback H. discriminate H.
  - refine (proj1 (proj2 (run_pipeline_calls_model (fun _ => "") (fun _ => "")
                     [("technical_analysis",
                       VStr "Data fetch failed. Check the stock symbol.")]
                     Analysis.reliance_steady
                     (Some Analysis.record_progress) initial_world eq_refl _))
              Analysis.record_progress _ eq_refl eq_refl).
    intros callback H. injection H as <-. intros current total w.
    reflexivity.
Defined.

End StockScraper.

(** ** Scraper.py: [technical_analysis] with the exceptions of its library
    calls *)

Module Indicators.

Import Py.
Import PyFloat.
Local Open Scope string_scope.
Local Open Scope Z_scope.
Local Open Scope py_scope.


(** A value a library call computes, or the exception it raises. *)
Definition value (r : Result float) : M float := fun w => (r, w).

Section Raising.

(** [yf.download(tick, period="1y", interval="1d")] *)
Variable yf_download : string -> Scraper.DataFrame.

(** The indicators, each at the latest bar, as pandas and the [ta] package
    compute them: [df['Close'].rolling(window).mean()],
    [RSIIndicator(close, window).rsi()], [MACD(close).macd()] and
    [.macd_signal()], [BollingerBands(close, window, window_dev)
    .bollinger_hband()] and [.bollinger_lband()],
    [EMAIndicator(close, window).ema_indicator()].  A call gives the float
    the code goes on to compare, which may be NaN, or raises: when
    [df['Close']] is not a one-dimensional column (a download whose columns
    have two levels), the indicator or the comparison of its value raises,
    and the call is [Raised]. *)
Variable pd_rolling_mean : nat -> Scraper.Series -> Result float.
Variable ta_rsi : nat -> Scraper.Series -> Result float.
Variable ta_macd : Scraper.Series -> Result float.
Variable ta_macd_signal : Scraper.Series -> Result float.
Variable ta_bollinger_hband : nat -> Z -> Scraper.Series -> Result float.
Variable ta_bollinger_lband : nat -> Z -> Scraper.Series -> Result float.
Variable ta_ema_indicator : nat -> Scraper.Series -> Result float.

(** The algorithm of the interpreter's [sum]. *)
Variable alg : SumAlgorithm.

(** [StockScraper.technical_analysis], statement by statement: there is no
    [try] in it, so an exception of a library call ends it. *)
Definition technical_analysis (self : Scraper.StockScraper) : M string :=
  let tick := Scraper.stock self ++ ".NS" in
  let df := yf_download tick in
  if Scraper.empty df then
    log ERROR ("Data fetch failed for ticker: " ++ tick) ;;;
    ret "Data fetch failed. Check the stock symbol."
  else
    let close := Scraper.column_Close df in
    let signals := [] in
    SMA_50 <- value (pd_rolling_mean 50 close) ;;
    SMA_100 <- value (pd_rolling_mean 100 close) ;;
    let signals := (signals ++ [if gt SMA_50 SMA_100 then 1 else -1])%list in
    RSI <- value (ta_rsi 14 close) ;;
    let signals :=
      (signals ++ [if gt RSI 70 then -1 else if lt RSI 30 then 1 else 0])%list in
    MACD_line <- value (ta_macd close) ;;
    MACD_signal <- value (ta_macd_signal close) ;;
    let signals :=
      (signals ++ [if gt MACD_line MACD_signal then 1 else -1])%list in
    BB_upper <- value (ta_bollinger_hband 20 2 close) ;;
    BB_lower <- value (ta_bollinger_lband 20 2 close) ;;
    let signals :=
      (signals ++
       [if lt (Scraper.iloc_last close) BB_lower then 1
        else if gt (Scraper.iloc_last close) BB_upper then -1
        else 0])%list in
    EMA_20 <- value (ta_ema_indicator 20 close) ;;
    EMA_50 <- value (ta_ema_indicator 50 close) ;;
    let signals := (signals ++ [if gt EMA_20 EMA_50 then 1 else -1])%list in
    ret (Scraper.recommendation (Scraper.weighted_signals alg signals)).


End Raising.


(** *** What a run returns, and what it raises *)





Section RaisingFacts.

Variable yf_download : string -> Scraper.DataFrame.
Variable pd_rolling_mean : nat -> Scraper.Series -> Result float.
Variable ta_rsi : nat -> Scraper.Series -> Result float.
Variable ta_macd : Scraper.Series -> Result float.
Variable ta_macd_signal : Scraper.Series -> Result float.
Variable ta_bollinger_hband : nat -> Z -> Scraper.Series -> Result float.
Variable ta_bollinger_lband : nat -> Z -> Scraper.Series -> Result float.
Variable ta_ema_indicator : nat -> Scraper.Series -> Result float.
Variable alg : SumAlgorithm.

Let run := technical_analysis yf_download pd_rolling_mean ta_rsi ta_macd
             ta_macd_signal ta_bollinger_hband ta_bollinger_lband
             ta_ema_indicator alg.



End RaisingFacts.

(** *** Two libraries *)

(** Rolling means that pandas computes as the model of [rolling_mean] does,
    and the indicators of a quiet market. *)
Definition rolling (window : nat) (close : Scraper.Series) : Result float :=
  Returned (Scraper.iloc_last (Scraper.rolling_mean window close)).

(** With libraries that never raise, and the rolling mean above, a run is
    the run of [Scraper.technical_analysis]: the same records logged, the
    same string returned. *)
Lemma technical_analysis_completes (yf_download : string -> Scraper.DataFrame)
    (ta_rsi : nat -> Scraper.Series -> float)
    (ta_macd ta_macd_signal : Scraper.Series -> float)
    (ta_bollinger_hband ta_bollinger_lband :
       nat -> Z -> Scraper.Series -> float)
    (ta_ema_indicator : nat -> Scraper.Series -> float)
    (alg : SumAlgorithm) (self : Scraper.StockScraper) (w : World) :
  let total :=
    Scraper.technical_analysis yf_download ta_rsi ta_macd ta_macd_signal
      ta_bollinger_hband ta_bollinger_lband ta_ema_indicator alg self in
  let r :=
    technical_analysis yf_download rolling
      (fun window close => Returned (ta_rsi window close))
      (fun close => Returned (ta_macd close))
      (fun close => Returned (ta_macd_signal close))
      (fun window dev close => Returned (ta_bollinger_hband window dev close))
      (fun window dev close => Returned (ta_bollinger_lband window dev close))
      (fun window close => Returned (ta_ema_indicator window close))
      alg self w in
  fst r = Returned (snd total) /\
  trace (snd r) =
    (trace w ++
     map (fun record => EvLog (fst record) (snd record)) (fst total))%list /\
  now (snd r) = now w /\ calls (snd r) = calls w /\ files (snd r) = files w.
Proof.
  unfold technical_analysis, Scraper.technical_analysis.
  destruct (yf_download (Scraper.stock self ++ ".NS")) as [|bar df].
  - cbn. repeat split; reflexivity.
  - cbn [Scraper.empty]. cbv beta iota zeta delta [bind value ret rolling].
    cbn [fst snd map]. rewrite app_nil_r. repeat split; reflexivity.
Qed.




End Indicators.
